(** * lib/asset/AssetGenerator.js — a shallow embedding and its properties

    The generator of webpack's asset modules turns one asset module into
    the source that other build artefacts reference.  This development
    embeds [AssetGenerator] ([getConcatenationBailoutReason], [generate],
    [getTypes], [getSize], [updateHash]) together with the JavaScript and
    Node built-ins it calls ([encodeURI], [Buffer#toString], [String#slice],
    [String#replace]) and states the properties of the generator over that
    embedding.

    Conventions.
    - A JavaScript string is a [string] that holds its generalized UTF-8
      octets: the UTF-8 of its code points, an unpaired surrogate being
      written as the three octets ED A0..BF 80..BF.  [Utf16.units] gives
      its UTF-16 code units.  A [Buffer] is a [list byte].
    - A JavaScript number is a binary64 [float].
    - [Set<string>] is stdpp's [gset string].
    - Code of webpack that lives outside this file (the hash, the path
      templating, the runtime template, ...) is a member of the class
      [Host]; every definition and theorem is generic in it. *)

From Stdlib Require Import ZArith NArith String Ascii List Lia Bool.
From Stdlib.Strings Require Import Byte.
From Stdlib Require Import PrimFloat Uint63.
From stdpp Require Import base gmap strings.
Import ListNotations.

Set Warnings "-inexact-float".
Local Open Scope string_scope.

(** ** The base64 alphabet of RFC 4648, as [Buffer#toString("base64")] uses it *)

Module Base64.

Definition alphabet : string :=
  "ABCDEFGHIJKLMNOPQRSTUVWXYZabcdefghijklmnopqrstuvwxyz0123456789+/".

Definition pad : ascii := "="%char.

(** The character of a sextet. *)
Definition digit (n : N) : ascii :=
  match String.get (N.to_nat n) alphabet with
  | Some c => c
  | None => pad
  end.

Fixpoint index_from (c : ascii) (s : string) (i : N) : option N :=
  match s with
  | EmptyString => None
  | String d r => if Ascii.eqb c d then Some i else index_from c r (N.succ i)
  end.

(** The sextet of a character, when it is one of the alphabet. *)
Definition value (c : ascii) : option N := index_from c alphabet 0.

Definition octet (n : N) : byte := byte_of_ascii (ascii_of_N (n mod 256)).

(** Three octets become four characters; one or two trailing octets
    become two or three characters and padding. *)
Fixpoint encode (bs : list byte) : string :=
  match bs with
  | [] => EmptyString
  | [a] =>
      let n := Byte.to_N a in
      String (digit (n / 4))
        (String (digit ((n mod 4) * 16))
           (String pad (String pad EmptyString)))
  | [a; b] =>
      let n := (Byte.to_N a * 256 + Byte.to_N b)%N in
      String (digit (n / 1024))
        (String (digit ((n / 16) mod 64))
           (String (digit ((n mod 16) * 4))
              (String pad EmptyString)))
  | a :: b :: c :: rest =>
      let n := (Byte.to_N a * 65536 + Byte.to_N b * 256 + Byte.to_N c)%N in
      String (digit (n / 262144))
        (String (digit ((n / 4096) mod 64))
           (String (digit ((n / 64) mod 64))
              (String (digit (n mod 64)) (encode rest))))
  end.

Definition quantum3 (c1 c2 c3 c4 : ascii) : option (list byte) :=
  match value c1, value c2, value c3, value c4 with
  | Some s1, Some s2, Some s3, Some s4 =>
      let n := (s1 * 262144 + s2 * 4096 + s3 * 64 + s4)%N in
      Some [octet (n / 65536); octet (n / 256); octet n]
  | _, _, _, _ => None
  end.

Definition quantum2 (c1 c2 c3 : ascii) : option (list byte) :=
  match value c1, value c2, value c3 with
  | Some s1, Some s2, Some s3 =>
      let n := (s1 * 4096 + s2 * 64 + s3)%N in
      Some [octet (n / 1024); octet (n / 4)]
  | _, _, _ => None
  end.

Definition quantum1 (c1 c2 : ascii) : option (list byte) :=
  match value c1, value c2 with
  | Some s1, Some s2 => Some [octet ((s1 * 64 + s2) / 16)]
  | _, _ => None
  end.

(** The decoder reads four characters at a time; padding is accepted in
    the last group only. *)
Fixpoint decode (s : string) : option (list byte) :=
  match s with
  | EmptyString => Some []
  | String c1 (String c2 (String c3 (String c4 rest))) =>
      match rest with
      | EmptyString =>
          if Ascii.eqb c4 pad then
            if Ascii.eqb c3 pad then quantum1 c1 c2 else quantum2 c1 c2 c3
          else quantum3 c1 c2 c3 c4
      | String _ _ =>
          match quantum3 c1 c2 c3 c4, decode rest with
          | Some q, Some bs => Some (q ++ bs)%list
          | _, _ => None
          end
      end
  | _ => None
  end.

Lemma value_digit (n : N) : (n < 64)%N -> value (digit n) = Some n.
Proof.
  intros Hn.
  assert (exists k, (k < 64)%nat /\ n = N.of_nat k) as (k & Hk & ->)
    by (exists (N.to_nat n); lia).
  do 64 (destruct k as [|k]; [reflexivity|]).
  lia.
Qed.

Lemma value_pad : value pad = None.
Proof. reflexivity. Qed.

Lemma digit_not_pad (n : N) : (n < 64)%N -> Ascii.eqb (digit n) pad = false.
Proof.
  intros Hn. destruct (Ascii.eqb (digit n) pad) eqn:E; [|reflexivity].
  apply Ascii.eqb_eq in E. pose proof (value_digit n Hn) as Hv.
  rewrite E, value_pad in Hv. discriminate.
Qed.

Lemma octet_to_N (b : byte) : octet (Byte.to_N b) = b.
Proof.
  unfold octet. pose proof (Byte.to_N_bounded b).
  rewrite N.mod_small by lia.
  rewrite <- ascii_of_byte_via_N. apply byte_of_ascii_of_byte.
Qed.

Lemma octet_of (n : N) (b : byte) : (n mod 256 = Byte.to_N b)%N -> octet n = b.
Proof.
  intros H. rewrite <- (octet_to_N b). unfold octet.
  rewrite H. pose proof (Byte.to_N_bounded b).
  rewrite (N.mod_small (Byte.to_N b)) by lia. reflexivity.
Qed.

Ltac bound_bytes :=
  repeat match goal with
    | b : byte |- _ =>
        lazymatch goal with
        | _ : (Byte.to_N b <= 255)%N |- _ => fail
        | _ => pose proof (Byte.to_N_bounded b)
        end
    end.

Ltac div_mod_lia :=
  zify; Z.to_euclidean_division_equations; lia.

Lemma quantum3_encode (a b c : byte) :
  let n := (Byte.to_N a * 65536 + Byte.to_N b * 256 + Byte.to_N c)%N in
  quantum3 (digit (n / 262144)) (digit ((n / 4096) mod 64))
           (digit ((n / 64) mod 64)) (digit (n mod 64)) = Some [a; b; c].
Proof.
  intros n. bound_bytes. unfold quantum3.
  rewrite !value_digit by (subst n; div_mod_lia).
  replace (n / 262144 * 262144 + n / 4096 mod 64 * 4096
           + n / 64 mod 64 * 64 + n mod 64)%N with n by div_mod_lia.
  rewrite (octet_of (n / 65536) a), (octet_of (n / 256) b), (octet_of n c)
    by (subst n; div_mod_lia).
  reflexivity.
Qed.

Lemma quantum2_encode (a b : byte) :
  let n := (Byte.to_N a * 256 + Byte.to_N b)%N in
  quantum2 (digit (n / 1024)) (digit ((n / 16) mod 64))
           (digit ((n mod 16) * 4)) = Some [a; b].
Proof.
  intros n. bound_bytes. unfold quantum2.
  rewrite !value_digit by (subst n; div_mod_lia).
  rewrite (octet_of _ a), (octet_of _ b) by (subst n; div_mod_lia).
  reflexivity.
Qed.

Lemma quantum1_encode (a : byte) :
  let n := Byte.to_N a in
  quantum1 (digit (n / 4)) (digit ((n mod 4) * 16)) = Some [a].
Proof.
  intros n. bound_bytes. unfold quantum1.
  rewrite !value_digit by (subst n; div_mod_lia).
  rewrite (octet_of _ a) by (subst n; div_mod_lia).
  reflexivity.
Qed.

(** Induction over a list three elements at a time, the way [encode]
    recurses. *)
Lemma list_ind3 {A} (P : list A -> Prop) :
  P [] -> (forall a, P [a]) -> (forall a b, P [a; b]) ->
  (forall a b c l, P l -> P (a :: b :: c :: l)) ->
  forall l, P l.
Proof.
  intros H0 H1 H2 H3.
  assert (forall l, P l /\ (forall a, P (a :: l)) /\ (forall a b, P (a :: b :: l)))
    as Hall.
  { induction l as [|x l [IH0 [IH1 IH2]]]; [auto|].
    repeat split; auto. }
  intros l. apply Hall.
Qed.

Lemma decode_encode (bs : list byte) : decode (encode bs) = Some bs.
Proof.
  induction bs as [|a|a b|a b c rest IH] using list_ind3.
  - reflexivity.
  - cbn [encode decode]. rewrite Ascii.eqb_refl. apply quantum1_encode.
  - cbn [encode decode]. bound_bytes.
    rewrite Ascii.eqb_refl, digit_not_pad by div_mod_lia.
    apply quantum2_encode.
  - cbn [encode]. cbv zeta. cbn [decode]. fold (encode rest).
    bound_bytes.
    destruct (encode rest) eqn:E.
    + rewrite digit_not_pad by div_mod_lia.
      rewrite quantum3_encode. cbn [decode] in IH. congruence.
    + rewrite quantum3_encode, IH. reflexivity.
Qed.

End Base64.

(** ** UTF-8: [Buffer#toString("utf-8")] and [Buffer.from(string, "utf-8")]

    A string is held as its UTF-8 octets, so decoding a buffer keeps
    every well-formed sequence as it is and puts U+FFFD (EF BF BD) in the
    place of each maximal ill-formed part, the way the WHATWG decoder
    does; encoding a string keeps its octets and puts U+FFFD in the
    place of each unpaired surrogate. *)

Module Utf8.

Definition replacement : string :=
  String (ascii_of_N 239) (String (ascii_of_N 191) (String (ascii_of_N 189) EmptyString)).

Inductive state :=
| Start
| Pending (seen : string) (needed : nat) (lower upper : N).

Definition between (lo n hi : N) : bool := ((lo <=? n) && (n <=? hi))%N.

(** A byte read when no sequence is open. *)
Definition lead (b : ascii) : string * state :=
  let n := N_of_ascii b in
  if (n <=? 127)%N then (String b EmptyString, Start)
  else if between 194 n 223 then
    (EmptyString, Pending (String b EmptyString) 1 128 191)
  else if between 224 n 239 then
    (EmptyString,
     Pending (String b EmptyString) 2
       (if (n =? 224)%N then 160%N else 128%N)
       (if (n =? 237)%N then 159%N else 191%N))
  else if between 240 n 244 then
    (EmptyString,
     Pending (String b EmptyString) 3
       (if (n =? 240)%N then 144%N else 128%N)
       (if (n =? 244)%N then 143%N else 191%N))
  else (replacement, Start).

Fixpoint decode_from (st : state) (bs : list byte) : string :=
  match bs with
  | [] =>
      match st with
      | Start => EmptyString
      | Pending _ _ _ _ => replacement
      end
  | x :: rest =>
      let b := ascii_of_byte x in
      match st with
      | Start => let (out, st') := lead b in out ++ decode_from st' rest
      | Pending seen needed lower upper =>
          if between lower (N_of_ascii b) upper then
            match needed with
            | S (S k) =>
                decode_from (Pending (seen ++ String b EmptyString) (S k) 128 191) rest
            | _ => seen ++ String b (decode_from Start rest)
            end
          else
            let (out, st') := lead b in
            replacement ++ out ++ decode_from st' rest
      end
  end.

Definition decode (bs : list byte) : string := decode_from Start bs.

Definition is_ascii (c : ascii) : bool := (N_of_ascii c <=? 127)%N.

Fixpoint all_ascii (s : string) : bool :=
  match s with
  | EmptyString => true
  | String c r => is_ascii c && all_ascii r
  end.

Lemma decode_ascii (s : string) :
  all_ascii s = true -> decode (list_byte_of_string s) = s.
Proof.
  unfold decode. induction s as [|c r IH]; [reflexivity|].
  cbn [all_ascii]. intros [Hc Hr]%andb_true_iff.
  change (list_byte_of_string (String c r))
    with (byte_of_ascii c :: list_byte_of_string r).
  cbn [decode_from]. rewrite ascii_of_byte_of_ascii.
  unfold lead. unfold is_ascii in Hc. rewrite Hc.
  cbn [append]. rewrite IH by assumption. reflexivity.
Qed.


(** The octet ED opens an unpaired surrogate when the next octet is A0
    or more (in UTF-8 proper ED is followed by 80..9F). *)
Definition opens_surrogate (b : ascii) (r : string) : bool :=
  (N_of_ascii b =? 237)%N &&
  match r with
  | String c _ => (160 <=? N_of_ascii c)%N
  | EmptyString => false
  end.

(** The string has an unpaired surrogate. *)
Fixpoint lone_surrogate (s : string) : bool :=
  match s with
  | EmptyString => false
  | String b r => opens_surrogate b r || lone_surrogate r
  end.

(** [Buffer.from(s, "utf-8")]: the three octets of an unpaired
    surrogate become EF BF BD, every other octet stays. *)
Fixpoint encode_from (pending : nat) (s : string) : list byte :=
  match s with
  | EmptyString => []
  | String b r =>
      match pending with
      | S (S _) => xbf :: encode_from 1 r
      | S O => xbd :: encode_from 0 r
      | O =>
          if opens_surrogate b r then xef :: encode_from 2 r
          else byte_of_ascii b :: encode_from 0 r
      end
  end.

Definition encode (s : string) : list byte := encode_from 0 s.



(** Without an unpaired surrogate the buffer holds the octets of the
    string. *)
Lemma encode_well_formed (s : string) :
  lone_surrogate s = false -> encode s = list_byte_of_string s.
Proof.
  unfold encode. induction s as [|b r IH]; [reflexivity|].
  cbn [lone_surrogate encode_from]. intros [Hb Hr]%orb_false_iff.
  rewrite Hb, IH by assumption. reflexivity.
Qed.

Lemma ascii_opens_nothing (b : ascii) (r : string) :
  is_ascii b = true -> opens_surrogate b r = false.
Proof.
  unfold is_ascii, opens_surrogate. intros Hb%N.leb_le.
  destruct (N.eqb_spec (N_of_ascii b) 237) as [E|_]; [lia|reflexivity].
Qed.

Lemma ascii_no_surrogate (s : string) :
  all_ascii s = true -> lone_surrogate s = false.
Proof.
  induction s as [|b r IH]; [reflexivity|].
  cbn [all_ascii lone_surrogate]. intros [Hb Hr]%andb_true_iff.
  rewrite ascii_opens_nothing, IH by assumption. reflexivity.
Qed.

(** *** A decoded buffer has no unpaired surrogate *)

Ltac append_step :=
  repeat first
    [ progress change (String ?a ?x ++ ?y) with (String a (x ++ y))
    | progress change (EmptyString ++ ?y) with y ].

Lemma append_snoc (x : string) (b : ascii) (t : string) :
  (x ++ String b EmptyString) ++ t = x ++ String b t.
Proof.
  induction x as [|a x IH]; append_step; [reflexivity|].
  rewrite IH. reflexivity.
Qed.

Lemma opens_surrogate_head (b : ascii) (c : ascii) (r r' : string) :
  opens_surrogate b (String c r) = opens_surrogate b (String c r').
Proof. reflexivity. Qed.

Lemma lone_surrogate_app (x : string) (b : ascii) (t : string) :
  lone_surrogate (x ++ String b t) =
    lone_surrogate (x ++ String b EmptyString) || lone_surrogate (String b t).
Proof.
  induction x as [|a x IH].
  - append_step; cbn [lone_surrogate].
    assert (opens_surrogate b EmptyString = false) as ->
      by (unfold opens_surrogate; apply andb_false_r).
    reflexivity.
  - append_step; cbn [lone_surrogate]. rewrite IH.
    assert (opens_surrogate a (x ++ String b t) =
            opens_surrogate a (x ++ String b EmptyString)) as ->
      by (destruct x; reflexivity).
    rewrite orb_assoc. reflexivity.
Qed.

(** The states the decoder reaches: what it has seen opens no surrogate
    with any octet it will accept next, and it accepts continuation
    octets only. *)
Definition safe (st : state) : Prop :=
  match st with
  | Start => True
  | Pending seen _ lower upper =>
      (upper <= 191)%N /\
      forall b, between lower (N_of_ascii b) upper = true ->
        lone_surrogate (seen ++ String b EmptyString) = false
  end.

Lemma between_spec (lo n hi : N) :
  between lo n hi = true <-> (lo <= n <= hi)%N.
Proof.
  unfold between. rewrite andb_true_iff, !N.leb_le. reflexivity.
Qed.

Lemma lead_safe (b : ascii) :
  safe (snd (lead b)) /\
  forall t, lone_surrogate (fst (lead b) ++ t) = lone_surrogate t.
Proof.
  unfold lead.
  destruct (N.leb_spec (N_of_ascii b) 127) as [Hascii|Hhigh].
  - split; [exact I|]. intros t. cbn [fst]; append_step; cbn [lone_surrogate].
    rewrite ascii_opens_nothing by (apply N.leb_le; exact Hascii). reflexivity.
  - assert (forall lower upper,
              (upper <= 191)%N ->
              (N_of_ascii b = 237%N -> (upper <= 159)%N) ->
              forall k, safe (Pending (String b EmptyString) k lower upper)) as Hpending.
    { intros lower upper Hu Hed k. split; [exact Hu|].
      intros c [_ Hc]%between_spec. append_step; cbn [lone_surrogate].
      unfold opens_surrogate.
      destruct (N.eqb_spec (N_of_ascii b) 237) as [E|_].
      - specialize (Hed E).
        destruct (N.leb_spec 160 (N_of_ascii c)); [lia|].
        rewrite !andb_false_r. reflexivity.
      - rewrite !andb_false_r. reflexivity. }
    destruct (between 194 (N_of_ascii b) 223) eqn:H2.
    { split; [|reflexivity]. apply between_spec in H2.
      apply Hpending; lia. }
    destruct (between 224 (N_of_ascii b) 239) eqn:H3.
    { split; [|reflexivity]. cbn [snd]. apply Hpending.
      - destruct (N_of_ascii b =? 237)%N; lia.
      - intros ->. cbn. lia. }
    destruct (between 240 (N_of_ascii b) 244) eqn:H4.
    { split; [|reflexivity]. cbn [snd]. apply between_spec in H4.
      apply Hpending.
      - destruct (N_of_ascii b =? 244)%N; lia.
      - lia. }
    split; [exact I|]. intros t. reflexivity.
Qed.

Lemma decode_from_no_surrogate (bs : list byte) (st : state) :
  safe st -> lone_surrogate (decode_from st bs) = false.
Proof.
  revert st. induction bs as [|x rest IH]; intros st Hst.
  - destruct st; reflexivity.
  - cbn [decode_from]. cbv zeta.
    set (b := ascii_of_byte x).
    pose proof (lead_safe b) as [Hlead Hout].
    destruct st as [|seen needed lower upper].
    + destruct (lead b) as [out st'] eqn:E. cbn [fst snd] in Hlead, Hout.
      rewrite Hout. apply IH. exact Hlead.
    + destruct Hst as [Hupper Hseen].
      destruct (between lower (N_of_ascii b) upper) eqn:Hin.
      * assert (opens_surrogate b (decode_from Start rest) = false) as Hb.
        { apply between_spec in Hin. unfold opens_surrogate.
          destruct (N.eqb_spec (N_of_ascii b) 237); [lia|reflexivity]. }
        destruct needed as [|[|k]].
        -- rewrite lone_surrogate_app, Hseen by exact Hin.
           cbn [lone_surrogate orb]. rewrite Hb. apply IH. exact I.
        -- rewrite lone_surrogate_app, Hseen by exact Hin.
           cbn [lone_surrogate orb]. rewrite Hb. apply IH. exact I.
        -- apply IH. split; [lia|].
           intros c Hc. rewrite append_snoc.
           rewrite lone_surrogate_app, Hseen by exact Hin.
           cbn [lone_surrogate orb]. unfold opens_surrogate.
           apply between_spec in Hin.
           destruct (N.eqb_spec (N_of_ascii b) 237); [lia|].
           destruct (N.eqb_spec (N_of_ascii c) 237);
             rewrite ?andb_false_r; reflexivity.
      * destruct (lead b) as [out st'] eqn:E. cbn [fst snd] in Hlead, Hout.
        change (lone_surrogate (replacement ++ out ++ decode_from st' rest))
          with (lone_surrogate (out ++ decode_from st' rest)).
        rewrite Hout. apply IH. exact Hlead.
Qed.

Lemma decode_no_surrogate (bs : list byte) : lone_surrogate (decode bs) = false.
Proof. apply decode_from_no_surrogate. exact I. Qed.

End Utf8.

(** ** [encodeURI] and percent-decoding (ECMAScript, URI handling) *)

Module URI.

(** uriReserved, uriUnescaped and the number sign: what [encodeURI]
    leaves as it is. *)
Definition unescapedSet : string :=
  ";/?:@&=+$,ABCDEFGHIJKLMNOPQRSTUVWXYZabcdefghijklmnopqrstuvwxyz0123456789-_.!~*'()#".

Fixpoint mem (c : ascii) (s : string) : bool :=
  match s with
  | EmptyString => false
  | String d r => Ascii.eqb c d || mem c r
  end.

Definition percent : ascii := "%"%char.

Definition hexDigit (n : N) : ascii :=
  match String.get (N.to_nat n) "0123456789ABCDEF" with
  | Some c => c
  | None => "0"%char
  end.

(** One octet, escaped or not. *)
Definition encodeOctet (c : ascii) (k : string) : string :=
  if mem c unescapedSet then String c k
  else
    let n := N_of_ascii c in
    String percent (String (hexDigit (n / 16)) (String (hexDigit (n mod 16)) k)).

(** Every code point outside the unescaped set is written as the
    escapes of its UTF-8 octets. *)
Fixpoint escape (s : string) : string :=
  match s with
  | EmptyString => EmptyString
  | String c r => encodeOctet c (escape r)
  end.

(** [encodeURI]: [None] is the URIError that a string with an unpaired
    surrogate raises. *)
Definition encodeURI (s : string) : option string :=
  if Utf8.lone_surrogate s then None else Some (escape s).

Definition hexValue (c : ascii) : option N :=
  let n := N_of_ascii c in
  if Utf8.between 48 n 57 then Some (n - 48)%N
  else if Utf8.between 65 n 70 then Some (n - 55)%N
  else if Utf8.between 97 n 102 then Some (n - 87)%N
  else None.

(** Percent-decoding: [%XY] becomes the octet XY, a percent sign that
    no two hexadecimal digits follow is malformed. *)
Fixpoint percentDecode (s : string) : option string :=
  match s with
  | EmptyString => Some EmptyString
  | String c r =>
      if Ascii.eqb c percent then
        match r with
        | String h (String l r') =>
            match hexValue h, hexValue l, percentDecode r' with
            | Some x, Some y, Some t => Some (String (ascii_of_N (16 * x + y)) t)
            | _, _, _ => None
            end
        | _ => None
        end
      else
        match percentDecode r with
        | Some t => Some (String c t)
        | None => None
        end
  end.

Lemma percentDecode_encodeOctet (c : ascii) (k t : string) :
  percentDecode k = Some t ->
  percentDecode (encodeOctet c k) = Some (String c t).
Proof.
  intros Hk.
  destruct c as [b0 b1 b2 b3 b4 b5 b6 b7].
  destruct b0, b1, b2, b3, b4, b5, b6, b7;
    vm_compute encodeOctet; cbn [percentDecode]; 
    repeat match goal with
      | |- context [Ascii.eqb ?a ?b] =>
          let v := eval vm_compute in (Ascii.eqb a b) in
          change (Ascii.eqb a b) with v; cbv iota
      | |- context [hexValue ?a] =>
          let v := eval vm_compute in (hexValue a) in
          change (hexValue a) with v; cbv iota
      end;
    rewrite Hk; reflexivity.
Qed.

Lemma percentDecode_escape (s : string) :
  percentDecode (escape s) = Some s.
Proof.
  induction s as [|c r IH]; [reflexivity|].
  cbn [escape]. apply percentDecode_encodeOctet, IH.
Qed.

(** Text made of unescaped characters is its own encoding. *)
Lemma escape_unescaped (s : string) :
  (forall c, mem c s = true -> mem c unescapedSet = true) ->
  escape s = s.
Proof.
  induction s as [|c r IH]; [reflexivity|].
  intros H. cbn [escape]. unfold encodeOctet.
  rewrite (H c) by (cbn [mem]; rewrite Ascii.eqb_refl; reflexivity).
  rewrite IH; [reflexivity|].
  intros d Hd. apply H. cbn [mem]. rewrite Hd. apply orb_true_r.
Qed.

(** [encodeURI] returns exactly for the strings without an unpaired
    surrogate. *)
Lemma encodeURI_returns (s : string) :
  Utf8.lone_surrogate s = false <-> encodeURI s = Some (escape s).
Proof.
  unfold encodeURI. destruct (Utf8.lone_surrogate s); split; congruence.
Qed.

Lemma encodeURI_throws (s : string) :
  Utf8.lone_surrogate s = true <-> encodeURI s = None.
Proof.
  unfold encodeURI. destruct (Utf8.lone_surrogate s); split; congruence.
Qed.

End URI.

(** ** The UTF-16 code units of a string

    [String#slice] and [String#length] count UTF-16 code units.  [units]
    reads them off the octets of a string, [of_units] writes a sequence
    of units back. *)

Module Utf16.

Definition low6 (b : ascii) : N := (N_of_ascii b mod 64)%N.

(** An octet that opens nothing, or a sequence cut short, stands for
    U+FFFD (no string the generator meets has one). *)
Fixpoint units (s : string) : list N :=
  match s with
  | EmptyString => []
  | String b0 r =>
      let n0 := N_of_ascii b0 in
      if (n0 <? 128)%N then n0 :: units r
      else if (n0 <? 192)%N then 65533%N :: units r
      else if (n0 <? 224)%N then
        match r with
        | String b1 r1 => ((n0 mod 32) * 64 + low6 b1)%N :: units r1
        | _ => 65533%N :: units r
        end
      else if (n0 <? 240)%N then
        match r with
        | String b1 (String b2 r2) =>
            ((n0 mod 16) * 4096 + low6 b1 * 64 + low6 b2)%N :: units r2
        | _ => 65533%N :: units r
        end
      else
        match r with
        | String b1 (String b2 (String b3 r3)) =>
            let cp := ((n0 mod 8) * 262144 + low6 b1 * 4096 +
                       low6 b2 * 64 + low6 b3)%N in
            let v := (cp - 65536)%N in
            (55296 + v / 1024)%N :: (56320 + v mod 1024)%N :: units r3
        | _ => 65533%N :: units r
        end
  end.

Definition octet (n : N) : ascii := ascii_of_N (n mod 256).

Definition is_high (u : N) : bool := ((55296 <=? u) && (u <=? 56319))%N.
Definition is_low (u : N) : bool := ((56320 <=? u) && (u <=? 57343))%N.

Definition three (u : N) (k : string) : string :=
  String (octet (224 + u / 4096))
    (String (octet (128 + (u / 64) mod 64))
       (String (octet (128 + u mod 64)) k)).

Definition one_unit (u : N) (k : string) : string :=
  if (u <? 128)%N then String (octet u) k
  else if (u <? 2048)%N then
    String (octet (192 + u / 64)) (String (octet (128 + u mod 64)) k)
  else three u k.

(** A high surrogate with the low one that follows it is one code point
    of four octets. *)
Fixpoint of_units (us : list N) : string :=
  match us with
  | [] => EmptyString
  | u :: rest =>
      match rest with
      | l :: rest' =>
          if (is_high u && is_low l)%bool then
            let cp := (65536 + (u - 55296) * 1024 + (l - 56320))%N in
            String (octet (240 + cp / 262144))
              (String (octet (128 + (cp / 4096) mod 64))
                 (String (octet (128 + (cp / 64) mod 64))
                    (String (octet (128 + cp mod 64)) (of_units rest'))))
          else one_unit u (of_units rest)
      | [] => one_unit u EmptyString
      end
  end.

(** [String#length]. *)
Definition length (s : string) : nat := List.length (units s).

(** [s.slice(0, e)]: the first [e] code units; a negative [e] counts
    from the end. *)
Definition slice0 (s : string) (e : Z) : string :=
  let us := units s in
  let len := Z.of_nat (List.length us) in
  let to := if (e <? 0)%Z then Z.max (len + e) 0 else Z.min e len in
  of_units (firstn (Z.to_nat to) us).

(** On ASCII text a code unit is an octet. *)
Lemma units_ascii (s : string) :
  Utf8.all_ascii s = true ->
  units s = List.map N_of_ascii (list_ascii_of_string s).
Proof.
  induction s as [|b r IH]; [reflexivity|].
  cbn [Utf8.all_ascii]. intros [Hb Hr]%andb_true_iff.
  cbn [units list_ascii_of_string List.map]. cbv zeta.
  unfold Utf8.is_ascii in Hb. apply N.leb_le in Hb.
  destruct (N.ltb_spec (N_of_ascii b) 128); [|lia].
  rewrite IH by assumption. reflexivity.
Qed.

Lemma of_units_ascii (cs : list ascii) :
  Forall (fun c => Utf8.is_ascii c = true) cs ->
  of_units (List.map N_of_ascii cs) = string_of_list_ascii cs.
Proof.
  induction cs as [|c rest IH]; [reflexivity|].
  intros Hall. inversion Hall as [|? ? Hc Hrest]; subst.
  unfold Utf8.is_ascii in Hc. apply N.leb_le in Hc.
  assert (one_unit (N_of_ascii c) (string_of_list_ascii rest) =
          String c (string_of_list_ascii rest)) as Hone.
  { unfold one_unit, octet.
    destruct (N.ltb_spec (N_of_ascii c) 128); [|lia].
    rewrite N.mod_small by lia. rewrite ascii_N_embedding. reflexivity. }
  cbn [List.map of_units string_of_list_ascii].
  destruct rest as [|d rest'].
  - exact Hone.
  - cbn [List.map]. cbn [List.map] in IH.
    assert (is_high (N_of_ascii c) = false) as ->.
    { unfold is_high. destruct (N.leb_spec 55296 (N_of_ascii c)); [lia|reflexivity]. }
    cbn [andb]. rewrite IH by assumption. exact Hone.
Qed.

Lemma all_ascii_Forall (s : string) :
  Utf8.all_ascii s = true ->
  Forall (fun c => Utf8.is_ascii c = true) (list_ascii_of_string s).
Proof.
  induction s as [|b r IH]; [constructor|].
  cbn [Utf8.all_ascii]. intros [Hb Hr]%andb_true_iff.
  constructor; auto.
Qed.

Lemma substring_firstn (n : nat) (s : string) :
  string_of_list_ascii (firstn n (list_ascii_of_string s)) = String.substring 0 n s.
Proof.
  revert n. induction s as [|b r IH]; intros [|n]; cbn; try reflexivity.
  rewrite IH. reflexivity.
Qed.

Lemma length_ascii (s : string) :
  Utf8.all_ascii s = true -> length s = String.length s.
Proof.
  intros Hs. unfold length. rewrite units_ascii by assumption.
  rewrite List.length_map. clear Hs.
  induction s as [|b r IH]; [reflexivity|]. cbn. rewrite IH. reflexivity.
Qed.

(** On ASCII text [slice] is the substring of that many characters. *)
Lemma slice0_ascii (s : string) (e : Z) :
  Utf8.all_ascii s = true ->
  slice0 s e =
    let len := Z.of_nat (String.length s) in
    String.substring 0
      (Z.to_nat (if (e <? 0)%Z then Z.max (len + e) 0 else Z.min e len)) s.
Proof.
  intros Hs. unfold slice0. cbv zeta.
  fold (length s). rewrite (length_ascii s Hs).
  rewrite units_ascii by assumption.
  rewrite List.firstn_map.
  rewrite of_units_ascii.
  - apply substring_firstn.
  - apply Forall_take, all_ascii_Forall, Hs.
Qed.

(** A code unit has sixteen bits. *)
Definition is_unit (u : N) : Prop := (u < 65536)%N.

Lemma octet_value (n : N) : (n < 256)%N -> N_of_ascii (octet n) = n.
Proof.
  intros Hn. unfold octet. rewrite N.mod_small by exact Hn.
  apply N_ascii_embedding. exact Hn.
Qed.

Lemma units_String (b0 : ascii) (r : string) :
  units (String b0 r) =
      let n0 := N_of_ascii b0 in
      if (n0 <? 128)%N then n0 :: units r
      else if (n0 <? 192)%N then 65533%N :: units r
      else if (n0 <? 224)%N then
        match r with
        | String b1 r1 => ((n0 mod 32) * 64 + low6 b1)%N :: units r1
        | _ => 65533%N :: units r
        end
      else if (n0 <? 240)%N then
        match r with
        | String b1 (String b2 r2) =>
            ((n0 mod 16) * 4096 + low6 b1 * 64 + low6 b2)%N :: units r2
        | _ => 65533%N :: units r
        end
      else
        match r with
        | String b1 (String b2 (String b3 r3)) =>
            let cp := ((n0 mod 8) * 262144 + low6 b1 * 4096 +
                       low6 b2 * 64 + low6 b3)%N in
            let v := (cp - 65536)%N in
            (55296 + v / 1024)%N :: (56320 + v mod 1024)%N :: units r3
        | _ => 65533%N :: units r
        end.
Proof. reflexivity. Qed.

Ltac settle_tests :=
  repeat match goal with
    | |- context [(?a <? ?b)%N] => destruct (N.ltb_spec a b); try (exfalso; Base64.div_mod_lia)
    end.

(** Reading back what was written for one code unit. *)
Lemma units_one_unit (u : N) (k : string) :
  is_unit u -> units (one_unit u k) = u :: units k.
Proof.
  unfold is_unit, one_unit. intros Hu.
  destruct (N.ltb_spec u 128) as [H1|H1]; [|destruct (N.ltb_spec u 2048) as [H2|H2]].
  - rewrite units_String. cbv zeta. rewrite octet_value by lia.
    settle_tests. reflexivity.
  - rewrite units_String. cbv zeta. unfold low6.
    rewrite !octet_value by Base64.div_mod_lia.
    settle_tests. f_equal. Base64.div_mod_lia.
  - unfold three. rewrite units_String. cbv zeta. unfold low6.
    rewrite !octet_value by Base64.div_mod_lia.
    settle_tests. f_equal. Base64.div_mod_lia.
Qed.

Lemma four_octets (cp : N) :
  (65536 <= cp < 1114112)%N ->
  (((240 + cp / 262144) mod 8) * 262144 +
   ((128 + (cp / 4096) mod 64) mod 64) * 4096 +
   ((128 + (cp / 64) mod 64) mod 64) * 64 +
   ((128 + cp mod 64) mod 64) = cp)%N.
Proof.
  intros Hrange.
  assert ((240 + cp / 262144) mod 8 = cp / 262144)%N as -> by Base64.div_mod_lia.
  assert ((128 + (cp / 4096) mod 64) mod 64 = (cp / 4096) mod 64)%N as -> by Base64.div_mod_lia.
  assert ((128 + (cp / 64) mod 64) mod 64 = (cp / 64) mod 64)%N as -> by Base64.div_mod_lia.
  assert ((128 + cp mod 64) mod 64 = cp mod 64)%N as -> by Base64.div_mod_lia.
  Base64.div_mod_lia.
Qed.

Lemma surrogates (u l : N) :
  (55296 <= u <= 56319)%N -> (56320 <= l <= 57343)%N ->
  let cp := (65536 + (u - 55296) * 1024 + (l - 56320))%N in
  (65536 <= cp < 1114112)%N /\
  (55296 + (cp - 65536) / 1024 = u)%N /\
  (56320 + (cp - 65536) mod 1024 = l)%N.
Proof. intros Hu Hl. cbv zeta. Base64.div_mod_lia. Qed.

Lemma units_pair (u l : N) (k : string) :
  is_high u = true -> is_low l = true ->
  let cp := (65536 + (u - 55296) * 1024 + (l - 56320))%N in
  units (String (octet (240 + cp / 262144))
           (String (octet (128 + (cp / 4096) mod 64))
              (String (octet (128 + (cp / 64) mod 64))
                 (String (octet (128 + cp mod 64)) k)))) = u :: l :: units k.
Proof.
  unfold is_high, is_low.
  intros [Hu1%N.leb_le Hu2%N.leb_le]%andb_true_iff
         [Hl1%N.leb_le Hl2%N.leb_le]%andb_true_iff.
  destruct (surrogates u l) as (Hrange & Hhigh & Hlow); [lia|lia|].
  cbv zeta in *.
  remember (65536 + (u - 55296) * 1024 + (l - 56320))%N as cp eqn:Hcp.
  clear Hcp Hu1 Hu2 Hl1 Hl2.
  rewrite units_String. cbv zeta. unfold low6.
  rewrite <- Hhigh, <- Hlow at 1. clear Hhigh Hlow.
  rewrite !octet_value by Base64.div_mod_lia.
  rewrite (four_octets cp Hrange).
  settle_tests. reflexivity.
Qed.

Lemma units_of_units (us : list N) :
  Forall is_unit us -> units (of_units us) = us.
Proof.
  assert (forall n us, (List.length us <= n)%nat -> Forall is_unit us ->
                       units (of_units us) = us) as H.
  { induction n as [|n IH]; intros [|u rest] Hlen Hall; try reflexivity;
      cbn [List.length] in Hlen; [lia|].
    inversion Hall as [|? ? Hu Hrest]; subst.
    cbn [of_units]. destruct rest as [|l rest'].
    - rewrite units_one_unit by assumption. reflexivity.
    - destruct (is_high u && is_low l)%bool eqn:Hpair.
      + apply andb_true_iff in Hpair as [Hh Hl].
        rewrite units_pair by assumption.
        inversion Hrest; subst. rewrite IH; [reflexivity| |assumption].
        cbn [List.length] in Hlen. lia.
      + rewrite units_one_unit by assumption.
        rewrite IH; [reflexivity| |assumption]. lia. }
  intros Hall. apply (H (List.length us)); [lia|exact Hall].
Qed.

Lemma units_range (s : string) : Forall is_unit (units s).
Proof.
  assert (forall n s, (String.length s <= n)%nat -> Forall is_unit (units s)) as H.
  { unfold is_unit.
    induction n as [|n IH]; intros [|b0 r] Hlen; try constructor;
      cbn [String.length] in Hlen; [lia|].
    assert (N_of_ascii b0 < 256)%N as Hb0 by apply N_ascii_bounded.
    assert (forall t, (String.length t <= String.length r)%nat ->
                      Forall (fun u => (u < 65536)%N) (units t)) as Hnext
      by (intros t Ht; apply IH; lia).
    rewrite units_String. cbv zeta. unfold low6.
    destruct (N.ltb_spec (N_of_ascii b0) 128);
      [constructor; [lia|apply Hnext; lia]|].
    destruct (N.ltb_spec (N_of_ascii b0) 192);
      [constructor; [lia|apply Hnext; lia]|].
    destruct (N.ltb_spec (N_of_ascii b0) 224).
    { destruct r as [|b1 r1]; constructor; try lia; try (apply Hnext; cbn; lia).
      Base64.div_mod_lia. }
    destruct (N.ltb_spec (N_of_ascii b0) 240).
    { destruct r as [|b1 [|b2 r2]]; constructor; try lia;
        try (apply Hnext; cbn; lia).
      Base64.div_mod_lia. }
    destruct r as [|b1 [|b2 [|b3 r3]]]; constructor; try lia;
        try (apply Hnext; cbn; lia).
    - Base64.div_mod_lia.
    - constructor; [Base64.div_mod_lia|apply Hnext; cbn; lia]. }
  apply (H (String.length s)). lia.
Qed.

(** [slice] keeps the leading code units. *)
Lemma units_slice0 (s : string) (e : Z) :
  units (slice0 s e) =
    let len := Z.of_nat (length s) in
    firstn (Z.to_nat (if (e <? 0)%Z then Z.max (len + e) 0 else Z.min e len))
      (units s).
Proof.
  unfold slice0, length. cbv zeta.
  apply units_of_units, Forall_take, units_range.
Qed.

End Utf16.

(** ** JavaScript values and operators the generator relies on *)

Module Js.

(** A number is an IEEE 754 binary64 value. *)
Definition number : Set := float.

(** The number of an integer quantity (a byte count). *)
Definition number_of_Z (z : Z) : number := PrimFloat.of_uint63 (Uint63.of_Z z).

(** What an option of the configuration may hold. *)
Inductive value :=
| Undefined
| Null
| Boolean (b : bool)
| Str (s : string).

(** ToBoolean. *)
Definition truthy_string (s : string) : bool := negb (String.eqb s "").

Definition truthy (v : value) : bool :=
  match v with
  | Undefined | Null => false
  | Boolean b => b
  | Str s => truthy_string s
  end.

(** ToString, as a template literal applies it. *)
Definition toString (v : value) : string :=
  match v with
  | Undefined => "undefined"
  | Null => "null"
  | Boolean true => "true"
  | Boolean false => "false"
  | Str s => s
  end.

(** [a || b] where [a] is a string or undefined. *)
Definition or_else (a : option string) (b : string) : string :=
  match a with
  | Some s => if truthy_string s then s else b
  | None => b
  end.

(** [a || b] where [b] is a string or [false] ([None]). *)
Definition or_lookup (a b : option string) : option string :=
  match a with
  | Some s => if truthy_string s then Some s else b
  | None => b
  end.

(** [s.slice(0, e)], in UTF-16 code units. *)
Definition slice0 (s : string) (e : Z) : string := Utf16.slice0 s e.

(** [s.replace(/^\.\//, "")]. *)
Definition stripDotSlash (s : string) : string :=
  match s with
  | String c (String d r) =>
      if (Ascii.eqb c "."%char && Ascii.eqb d "/"%char)%bool then r else s
  | _ => s
  end.

(** The quotation mark, for messages that quote a name. *)
Definition dquote : string := String (ascii_of_N 34) EmptyString.

(** Exceptions a call can end with. *)
Inductive exception :=
| Error (message : string)
| TypeError
| URIError.

Inductive completion (A : Type) :=
| Return (a : A)
| Throw (e : exception).
Arguments Return {A} a.
Arguments Throw {A} e.

End Js.

Import Js(Return, Throw, Error, TypeError, URIError).

(** ** The data model *)

(** The content of a source: text or raw bytes, as it is stored. *)
Inductive Content :=
| Text (s : string)
| Bytes (b : list byte).

(** webpack-sources: a source exposes its content as stored, as raw
    bytes, and its exact size. *)
Inductive Source :=
| RawSource (value : Content).

Module Source.
Definition source (s : Source) : Content :=
  match s with RawSource v => v end.

Definition buffer (s : Source) : list byte :=
  match s with
  | RawSource (Text t) => Utf8.encode t
  | RawSource (Bytes b) => b
  end.

Definition size (s : Source) : Z := Z.of_nat (length (buffer s)).
End Source.

(** Metadata attached to an emitted asset: an opaque key/value bag. *)
Definition AssetInfo : Type := list (string * string).

Module BuildInfo.
Record t := mk {
  dataUrl : bool;
  filename : option string;
  assetInfo : option AssetInfo;
  fullContentHash : option string
}.

Definition set_fullContentHash (v : string) (b : t) : t :=
  mk (dataUrl b) (filename b) (assetInfo b) (Some v).
Definition set_filename (v : string) (b : t) : t :=
  mk (dataUrl b) (Some v) (assetInfo b) (fullContentHash b).
Definition set_assetInfo (v : AssetInfo) (b : t) : t :=
  mk (dataUrl b) (filename b) (Some v) (fullContentHash b).

(** None of the three result fields is set. *)
Definition unset (b : t) : Prop :=
  filename b = None /\ assetInfo b = None /\ fullContentHash b = None.

(** All three result fields are set. *)
Definition written (b : t) : Prop :=
  is_Some (filename b) /\ is_Some (assetInfo b) /\ is_Some (fullContentHash b).
End BuildInfo.

Module NormalModule.
Record t := mk {
  originalSource : option Source;
  buildInfo : BuildInfo.t;
  matchResource : option string;
  resource : string
}.

Definition with_buildInfo (f : BuildInfo.t -> BuildInfo.t) (m : t) : t :=
  mk (originalSource m) (f (buildInfo m)) (matchResource m) (resource m).
End NormalModule.

(** [generator.dataUrl]: a custom encoder or the declarative form. *)
Inductive DataUrlOptions :=
| DataUrlFunction (f : Content -> string -> NormalModule.t -> string)
| DataUrlObject (encoding : Js.value) (mimetype : option string).

Module OutputOptions.
Record t := mk {
  assetModuleFilename : string;
  hashFunction : string;
  hashSalt : option string;
  hashDigest : string;
  hashDigestLength : Z
}.
End OutputOptions.

Module RuntimeTemplate.
Record t := mk { outputOptions : OutputOptions.t }.
End RuntimeTemplate.

(** The second argument of [getAssetPathWithInfo]. *)
Module PathData.
Record t (RuntimeSpec ChunkGraph : Type) := mk {
  module : NormalModule.t;
  runtime : RuntimeSpec;
  filename : string;
  chunkGraph : ChunkGraph;
  contentHash : string
}.
Arguments mk {RuntimeSpec ChunkGraph} _ _ _ _ _.
Arguments module {RuntimeSpec ChunkGraph} _.
Arguments runtime {RuntimeSpec ChunkGraph} _.
Arguments filename {RuntimeSpec ChunkGraph} _.
Arguments chunkGraph {RuntimeSpec ChunkGraph} _.
Arguments contentHash {RuntimeSpec ChunkGraph} _.
End PathData.

(** ** The collaborators

    What [AssetGenerator.js] requires from other files and packages.  The
    generator never looks inside these; it is verified for every
    instance.  The path resolution of the compilation runs the
    templating hooks and may throw. *)
Class Host := {
  Compilation : Type;
  CompilerRoot : Type;
  RuntimeSpec : Type;
  ChunkGraph : Type;
  ConcatenationScope : Type;
  Hash : Type;
  (* mime-types: [false] is [None] *)
  mimeTypes_lookup : string -> option string;
  (* path *)
  path_extname : string -> string;
  (* JSON *)
  JSON_stringify : string -> string;
  (* ../ConcatenationScope *)
  NAMESPACE_OBJECT_EXPORT : string;
  registerNamespaceExport : ConcatenationScope -> string -> ConcatenationScope;
  (* ../RuntimeGlobals *)
  RuntimeGlobals_module : string;
  RuntimeGlobals_publicPath : string;
  (* ../util/createHash *)
  createHash : string -> Hash;
  Hash_update : Hash -> Content -> Hash;
  Hash_digest : Hash -> string -> string;
  (* ../util/identifier *)
  makePathsRelative : string -> string -> CompilerRoot -> string;
  (* ../NormalModule *)
  nameForCondition : NormalModule.t -> string;
  (* ../RuntimeTemplate *)
  declareConst : RuntimeTemplate.t -> string -> string -> string;
  (* ../Compilation and ../Compiler *)
  compiler_context : Compilation -> string;
  compiler_root : Compilation -> CompilerRoot;
  getAssetPathWithInfo :
    Compilation -> string -> PathData.t RuntimeSpec ChunkGraph ->
    Js.completion (string * AssetInfo)
}.

(** ** class AssetGenerator *)

Section AssetGenerator.

Context {host : Host}.

Record AssetGenerator := {
  compilation : Compilation;
  dataUrlOptions : option DataUrlOptions;
  filename : option string
}.

(** The context of one [generate] call.  [runtimeRequirements] and
    [concatenationScope] are the objects the call may mutate, in the
    state they have when the call starts. *)
Record GenerateContext := {
  runtime : RuntimeSpec;
  chunkGraph : ChunkGraph;
  runtimeTemplate : RuntimeTemplate.t;
  runtimeRequirements : gset string;
  type : string;
  concatenationScope : option ConcatenationScope
}.

(** *** The objects a call can mutate, and the monad that threads them *)

Record Store := {
  the_module : NormalModule.t;
  the_runtimeRequirements : gset string;
  the_concatenationScope : option ConcatenationScope
}.

Definition M (A : Type) : Type := Store -> Js.completion A * Store.

Definition ret {A} (a : A) : M A := fun s => (Return a, s).

Definition bind {A B} (m : M A) (k : A -> M B) : M B :=
  fun s =>
    match m s with
    | (Return a, s') => k a s'
    | (Throw e, s') => (Throw e, s')
    end.

Definition throw {A} (e : Js.exception) : M A := fun s => (Throw e, s).

Notation "'let*' x ':=' m 'in' k" := (bind m (fun x => k))
  (at level 10, x name, m at level 200, k at level 200).
Notation "'run' m 'in' k" := (bind m (fun _ => k))
  (at level 10, m at level 200, k at level 200).

(** Reading the module object. *)
Definition load : M NormalModule.t := fun s => (Return (the_module s), s).

(** [module.buildInfo.f = v]. *)
Definition assign (f : BuildInfo.t -> BuildInfo.t) : M unit :=
  fun s =>
    (Return tt,
     {| the_module := NormalModule.with_buildInfo f (the_module s);
        the_runtimeRequirements := the_runtimeRequirements s;
        the_concatenationScope := the_concatenationScope s |}).

(** [runtimeRequirements.add(r)]. *)
Definition runtimeRequirements_add (r : string) : M unit :=
  fun s =>
    (Return tt,
     {| the_module := the_module s;
        the_runtimeRequirements := {[ r ]} ∪ the_runtimeRequirements s;
        the_concatenationScope := the_concatenationScope s |}).

(** [concatenationScope.registerNamespaceExport(name)]. *)
Definition concatenationScope_registerNamespaceExport (name : string) : M unit :=
  fun s =>
    (Return tt,
     {| the_module := the_module s;
        the_runtimeRequirements := the_runtimeRequirements s;
        the_concatenationScope :=
          option_map (fun c => registerNamespaceExport c name)
                     (the_concatenationScope s) |}).

(** A method call on [originalSource]: a TypeError when it is null. *)
Definition deref (o : option Source) : M Source :=
  match o with
  | Some src => ret src
  | None => throw TypeError
  end.

(** A call that returns or throws and touches none of the objects. *)
Definition call {A} (c : Js.completion A) : M A := fun s => (c, s).

(** [encodeURI(content)]. *)
Definition encodeURI (content : string) : M string :=
  match URI.encodeURI content with
  | Some encoded => ret encoded
  | None => throw URIError
  end.

Definition noMimetypeMessage (ext : string) : string :=
  "DataUrl can't be generated automatically, " ++
  "because there is no mimetype for " ++ Js.dquote ++ ext ++ Js.dquote ++
  " in mimetype database. " ++
  "Either pass a mimetype via " ++ Js.dquote ++ "generator.mimetype" ++ Js.dquote ++
  " or " ++
  "use type: " ++ Js.dquote ++ "asset/resource" ++ Js.dquote ++
  " to create a resource file instead of a DataUrl".

Definition unsupportedEncodingMessage (encoding : Js.value) : string :=
  "Unsupported encoding '" ++ Js.toString encoding ++ "'".

(** *** getConcatenationBailoutReason *)

Definition getConcatenationBailoutReason (module : NormalModule.t) : option string :=
  if negb (BuildInfo.dataUrl (NormalModule.buildInfo module))
  then Some "Asset module emits an asset"
  else None.

(** *** generate *)

Definition generate_body (this : AssetGenerator) (ctx : GenerateContext)
  : M (option Source) :=
  if String.eqb (type ctx) "asset" then
    let* module := load in
    ret (NormalModule.originalSource module)
  else
    let* module := load in
    let originalSource := NormalModule.originalSource module in
    if BuildInfo.dataUrl (NormalModule.buildInfo module) then
      let* encodedSource :=
        (match dataUrlOptions this with
         | Some (DataUrlFunction f) =>
             let* src := deref originalSource in
             ret (f (Source.source src)
                    (Js.or_else (NormalModule.matchResource module)
                                (NormalModule.resource module))
                    module)
         | Some (DataUrlObject encoding mimetype) =>
             let ext := path_extname (nameForCondition module) in
             match Js.or_lookup mimetype (mimeTypes_lookup ext) with
             | None => throw (Error (noMimetypeMessage ext))
             | Some mimeType =>
                 if negb (Js.truthy_string mimeType)
                 then throw (Error (noMimetypeMessage ext))
                 else
                   let unsupported : M string :=
                     throw (Error (unsupportedEncodingMessage encoding)) in
                   let* encodedContent :=
                     (match encoding with
                      | Js.Str e =>
                          if String.eqb e "base64" then
                            let* src := deref originalSource in
                            ret (Base64.encode (Source.buffer src))
                          else unsupported
                      | Js.Boolean false =>
                          let* src := deref originalSource in
                          match Source.source src with
                          | Text content => encodeURI content
                          | Bytes content => encodeURI (Utf8.decode content)
                          end
                      | _ => unsupported
                      end) in
                   ret ("data:" ++ mimeType ++
                        (if Js.truthy encoding
                         then ";" ++ Js.toString encoding else "") ++
                        "," ++ encodedContent)
             end
         | None => throw TypeError
         end) in
      let* source :=
        (match concatenationScope ctx with
         | Some _ =>
             let name := NAMESPACE_OBJECT_EXPORT in
             run concatenationScope_registerNamespaceExport name in
             ret (declareConst (runtimeTemplate ctx) name
                    (JSON_stringify encodedSource))
         | None =>
             run runtimeRequirements_add RuntimeGlobals_module in
             ret (RuntimeGlobals_module ++ ".exports = " ++
                  JSON_stringify encodedSource ++ ";")
         end) in
      ret (Some (RawSource (Text source)))
    else
      let outputOptions := RuntimeTemplate.outputOptions (runtimeTemplate ctx) in
      let assetModuleFilename :=
        Js.or_else (filename this)
                   (OutputOptions.assetModuleFilename outputOptions) in
      let hash := createHash (OutputOptions.hashFunction outputOptions) in
      let hash :=
        match OutputOptions.hashSalt outputOptions with
        | Some salt =>
            if Js.truthy_string salt then Hash_update hash (Text salt) else hash
        | None => hash
        end in
      let* src := deref originalSource in
      let hash := Hash_update hash (Bytes (Source.buffer src)) in
      let fullHash := Hash_digest hash (OutputOptions.hashDigest outputOptions) in
      let contentHash :=
        Js.slice0 fullHash (OutputOptions.hashDigestLength outputOptions) in
      run assign (BuildInfo.set_fullContentHash fullHash) in
      let* module := load in
      let* resolved :=
        call
          (getAssetPathWithInfo (compilation this) assetModuleFilename
             (PathData.mk module (runtime ctx)
                (Js.stripDotSlash
                   (makePathsRelative
                      (compiler_context (compilation this))
                      (Js.or_else (NormalModule.matchResource module)
                                  (NormalModule.resource module))
                      (compiler_root (compilation this))))
                (chunkGraph ctx) contentHash)) in
      let '(filename, info) := resolved in
      run assign (BuildInfo.set_filename filename) in
      run assign (BuildInfo.set_assetInfo info) in
      run runtimeRequirements_add RuntimeGlobals_publicPath in
      let value := RuntimeGlobals_publicPath ++ " + " ++ JSON_stringify filename in
      let* source :=
        (match concatenationScope ctx with
         | Some _ =>
             let name := NAMESPACE_OBJECT_EXPORT in
             run concatenationScope_registerNamespaceExport name in
             ret (declareConst (runtimeTemplate ctx) name value)
         | None =>
             run runtimeRequirements_add RuntimeGlobals_module in
             ret (RuntimeGlobals_module ++ ".exports = " ++ value ++ ";")
         end) in
      ret (Some (RawSource (Text source))).

(** One call: the completion, and the module, the runtime requirements
    and the concatenation scope as the call leaves them. *)
Definition generate (this : AssetGenerator) (module : NormalModule.t)
    (ctx : GenerateContext) : Js.completion (option Source) * Store :=
  generate_body this ctx
    {| the_module := module;
       the_runtimeRequirements := runtimeRequirements ctx;
       the_concatenationScope := concatenationScope ctx |}.

(** *** getTypes *)

Definition JS_TYPES : gset string := {[ "javascript" ]}.
Definition JS_AND_ASSET_TYPES : gset string := {[ "javascript"; "asset" ]}.

Definition getTypes (module : NormalModule.t) : gset string :=
  if BuildInfo.dataUrl (NormalModule.buildInfo module)
  then JS_TYPES
  else JS_AND_ASSET_TYPES.

(** *** getSize *)

Definition getSize (module : NormalModule.t) (type : option string) : Js.number :=
  let is_asset :=
    match type with Some t => String.eqb t "asset" | None => false end in
  if is_asset then
    match NormalModule.originalSource module with
    | None => 0%float
    | Some originalSource => Js.number_of_Z (Source.size originalSource)
    end
  else if BuildInfo.dataUrl (NormalModule.buildInfo module) then
    match NormalModule.originalSource module with
    | None => 0%float
    | Some originalSource =>
        (Js.number_of_Z (Source.size originalSource) * 1.34 + 36)%float
    end
  else 42%float.

(** *** updateHash *)

Definition updateHash (hash : Hash) (module : NormalModule.t) : Hash :=
  Hash_update hash
    (Text (if BuildInfo.dataUrl (NormalModule.buildInfo module)
           then "data-url" else "resource")).

End AssetGenerator.

Arguments AssetGenerator {host}.
Arguments GenerateContext {host}.
Arguments Store {host}.

(** ** A small host, to run the generator on concrete inputs

    The hash keeps the transcript of what it was fed; the path template
    knows [[hash]], [[ext]] and [[runtime]], and rejects [[fullhash]],
    which no asset module has. *)

Module Sample.

Fixpoint replaceAll_from (skip : nat) (pat rep s : string) : string :=
  match s with
  | EmptyString => EmptyString
  | String c r =>
      match skip with
      | S k => replaceAll_from k pat rep r
      | O =>
          if String.prefix pat s
          then rep ++ replaceAll_from (String.length pat - 1) pat rep r
          else String c (replaceAll_from 0 pat rep r)
      end
  end.

Definition replaceAll : string -> string -> string -> string := replaceAll_from 0.

Fixpoint includes (pat s : string) : bool :=
  String.prefix pat s ||
  match s with
  | EmptyString => false
  | String _ r => includes pat r
  end.

(** [path.basename] and [path.extname] on POSIX paths that end in no
    slash: the extension starts at the last dot of the last segment, and
    a dot that opens the segment starts none. *)
Fixpoint basename (s : string) : string :=
  match s with
  | EmptyString => EmptyString
  | String c r =>
      if URI.mem "/"%char r then basename r
      else if Ascii.eqb c "/"%char then r else s
  end.

Fixpoint suffix_from_last_dot (s : string) : option string :=
  match s with
  | EmptyString => None
  | String c r =>
      match suffix_from_last_dot r with
      | Some e => Some e
      | None => if Ascii.eqb c "."%char then Some s else None
      end
  end.

Definition extname (s : string) : string :=
  match basename s with
  | EmptyString => EmptyString
  | String c r =>
      if String.eqb (String c r) ".." then EmptyString
      else match suffix_from_last_dot r with
           | Some e => e
           | None => EmptyString
           end
  end.

(** [JSON.stringify] of a string: quotes, with the quotation mark, the
    backslash and the control characters escaped. *)
Definition escape (c : ascii) : string :=
  let n := N_of_ascii c in
  if (n =? 34)%N then String "\"%char Js.dquote
  else if (n =? 92)%N then "\\"
  else if (n =? 8)%N then "\b"
  else if (n =? 9)%N then "\t"
  else if (n =? 10)%N then "\n"
  else if (n =? 12)%N then "\f"
  else if (n =? 13)%N then "\r"
  else if (n <? 32)%N then
    "\u00" ++ String (if (n <? 16)%N then "0"%char else "1"%char)
                 (String (match String.get (N.to_nat (n mod 16)) "0123456789abcdef" with
                          | Some d => d
                          | None => "0"%char
                          end) EmptyString)
  else String c EmptyString.

Fixpoint escapeAll (s : string) : string :=
  match s with
  | EmptyString => EmptyString
  | String c r => escape c ++ escapeAll r
  end.

Definition stringify (s : string) : string := Js.dquote ++ escapeAll s ++ Js.dquote.

Fixpoint beforeQuery (s : string) : string :=
  match s with
  | EmptyString => EmptyString
  | String c r => if Ascii.eqb c "?"%char then EmptyString else String c (beforeQuery r)
  end.

Definition lookup (ext : string) : option string :=
  if String.eqb ext ".png" then Some "image/png"
  else if String.eqb ext ".txt" then Some "text/plain"
  else if String.eqb ext ".svg" then Some "image/svg+xml"
  else None.

Fixpoint stripPrefix (p s : string) : option string :=
  match p, s with
  | EmptyString, _ => Some s
  | String a p', String b s' => if Ascii.eqb a b then stripPrefix p' s' else None
  | _, _ => None
  end.

Definition transcript (h : list Content) : list byte :=
  flat_map (fun c => match c with
                     | Text t => Utf8.encode t
                     | Bytes b => b
                     end) h.

(** The path resolution: the three placeholders are filled in, whatever
    else the template holds is kept, and [[fullhash]] throws. *)
Definition resolve (template : string) (data : PathData.t (option string) unit)
  : Js.completion (string * AssetInfo) :=
  if includes "[fullhash]" template
  then Throw (Error ("Path variable [fullhash] not implemented in this context: "
                     ++ template))
  else
    Return
      (replaceAll "[runtime]" (Js.or_else (PathData.runtime data) "_")
         (replaceAll "[ext]" (extname (PathData.filename data))
            (replaceAll "[hash]" (PathData.contentHash data) template)),
       [("contenthash", PathData.contentHash data)]).

#[export] Instance host : Host := {|
  Compilation := string;
  CompilerRoot := unit;
  RuntimeSpec := option string;
  ChunkGraph := unit;
  ConcatenationScope := list string;
  Hash := list Content;
  mimeTypes_lookup := lookup;
  path_extname := extname;
  JSON_stringify := stringify;
  NAMESPACE_OBJECT_EXPORT := "__WEBPACK_NAMESPACE_OBJECT__";
  registerNamespaceExport := fun scope name => name :: scope;
  RuntimeGlobals_module := "module";
  RuntimeGlobals_publicPath := "__webpack_require__.p";
  createHash := fun algorithm => [Text algorithm];
  Hash_update := fun h data => (h ++ [data])%list;
  Hash_digest := fun h encoding => encoding ++ ":" ++ Base64.encode (transcript h);
  makePathsRelative := fun context identifier _ =>
    match stripPrefix (context ++ "/") identifier with
    | Some rest => "./" ++ rest
    | None => identifier
    end;
  nameForCondition := fun m =>
    beforeQuery (Js.or_else (NormalModule.matchResource m) (NormalModule.resource m));
  declareConst := fun _ name value => "const " ++ name ++ " = " ++ value ++ ";";
  compiler_context := fun c => c;
  compiler_root := fun _ => tt;
  getAssetPathWithInfo := fun _ => resolve
|}.

Definition outputOptions : OutputOptions.t :=
  OutputOptions.mk "[hash][ext]" "md4" None "hex" 20.

Definition context (type : string) (scope : option (list string))
  : GenerateContext :=
  {| runtime := None;
     chunkGraph := tt;
     runtimeTemplate := RuntimeTemplate.mk outputOptions;
     runtimeRequirements := ∅;
     type := type;
     concatenationScope := scope |}.

Definition freshBuildInfo (dataUrl : bool) : BuildInfo.t :=
  BuildInfo.mk dataUrl None None None.

Definition module (dataUrl : bool) (content : option Content) (resource : string)
  : NormalModule.t :=
  NormalModule.mk (option_map RawSource content) (freshBuildInfo dataUrl) None resource.

Definition generator (options : option DataUrlOptions) : AssetGenerator :=
  {| compilation := "/app"; dataUrlOptions := options; filename := None |}.

Definition png : list byte := [x89; x50; x4e; x47].

(** Data-url modules. *)
Definition hello : NormalModule.t :=
  module true (Some (Text "hello")) "/app/src/hello.txt".
Definition helloBytes : NormalModule.t :=
  module true (Some (Bytes (list_byte_of_string "hello"))) "/app/src/hello.txt".
Definition pixel : NormalModule.t := module true (Some (Bytes png)) "/app/src/pixel.png".
Definition unknown : NormalModule.t :=
  module true (Some (Bytes png)) "/app/src/data.unknownext".
Definition empty : NormalModule.t := module true (Some (Bytes [])) "/app/src/empty.txt".
Definition unbuilt : NormalModule.t := module true None "/app/src/hello.txt".

(** Resource modules: the same file seen from two checkouts. *)
Definition logo : NormalModule.t := module false (Some (Bytes png)) "/app/src/logo.png".
Definition logo' : NormalModule.t :=
  NormalModule.mk (Some (RawSource (Bytes png))) (freshBuildInfo false)
    (Some "/srv/build/src/logo.png") "/srv/build/src/logo.png?raw".

Definition generator' : AssetGenerator :=
  {| compilation := "/srv/build"; dataUrlOptions := None; filename := Some "[hash][ext]" |}.

Definition context' : GenerateContext :=
  {| runtime := Some "main";
     chunkGraph := tt;
     runtimeTemplate := RuntimeTemplate.mk (OutputOptions.mk "static/[hash][ext]" "md4" None "hex" 20);
     runtimeRequirements := {[ "module" ]};
     type := "javascript";
     concatenationScope := Some [] |}.

Definition declarative (encoding : Js.value) : AssetGenerator :=
  generator (Some (DataUrlObject encoding None)).

(** A stored string with an unpaired surrogate: the letter a, then
    U+D800. *)
Definition lone : string :=
  String "a"
    (String (ascii_of_N 237) (String (ascii_of_N 160) (String (ascii_of_N 128)
       EmptyString))).
Definition surrogate : NormalModule.t :=
  module true (Some (Text lone)) "/app/src/lone.txt".

(** A generator with a filename template of its own, and the context of
    a runtime. *)
Definition templated (template : string) : AssetGenerator :=
  {| compilation := "/app"; dataUrlOptions := None; filename := Some template |}.

Definition contextOf (runtime : option string) : GenerateContext :=
  {| runtime := runtime;
     chunkGraph := tt;
     runtimeTemplate := RuntimeTemplate.mk outputOptions;
     runtimeRequirements := ∅;
     type := "javascript";
     concatenationScope := None |}.

(** The logo after an earlier build left a full content hash in it. *)
Definition stale : NormalModule.t :=
  NormalModule.mk (Some (RawSource (Bytes png)))
    (BuildInfo.mk false None None (Some "hex:stale")) None "/app/src/logo.png".

End Sample.

(** ** Properties of the generator *)

Section Properties.

Context {host : Host}.

(** The store a call starts from. *)
Definition initial (module : NormalModule.t) (ctx : GenerateContext) : Store :=
  {| the_module := module;
     the_runtimeRequirements := runtimeRequirements ctx;
     the_concatenationScope := concatenationScope ctx |}.

Ltac run_generate :=
  unfold generate, generate_body, deref, encodeURI, call, bind, load, ret,
    throw, assign, runtimeRequirements_add,
    concatenationScope_registerNamespaceExport, initial;
  cbn [the_module the_runtimeRequirements the_concatenationScope fst snd].

(** Case analysis on a scrutinee that has no case analysis inside. *)
Ltac case_inner :=
  match goal with
  | |- context [match ?x with _ => _ end] =>
      lazymatch x with
      | context [match _ with _ => _ end] => fail
      | _ => destruct x eqn:?
      end
  end;
  cbn beta iota zeta;
  cbn [the_module the_runtimeRequirements the_concatenationScope fst snd].

Ltac reduce :=
  cbn beta iota zeta;
  cbn [the_module the_runtimeRequirements the_concatenationScope fst snd].

(** *** The asset kind *)

Lemma generate_asset this module ctx :
  type ctx = "asset" ->
  generate this module ctx =
    (Return (NormalModule.originalSource module), initial module ctx).
Proof. intros Ht. run_generate. rewrite Ht. reflexivity. Qed.

(** *** What a call does to the module *)

Definition module_after this module ctx : NormalModule.t :=
  the_module (snd (generate this module ctx)).

(** A call that ends with a value. *)
Definition returns this module ctx : Prop :=
  exists out, fst (generate this module ctx) = Return out.

(** The data-url mode writes nothing to the module, however it ends. *)
Lemma generate_dataUrl_keeps_module this module ctx :
  BuildInfo.dataUrl (NormalModule.buildInfo module) = true ->
  module_after this module ctx = module.
Proof.
  intros Hd. unfold module_after. run_generate.
  repeat (case_inner; try congruence; try reflexivity).
Qed.

(** In the data-url mode a call that throws leaves every object as it
    was. *)
Lemma generate_dataUrl_throw_no_effect this module ctx e :
  BuildInfo.dataUrl (NormalModule.buildInfo module) = true ->
  fst (generate this module ctx) = Throw e ->
  snd (generate this module ctx) = initial module ctx.
Proof.
  intros Hd. run_generate.
  repeat (case_inner; try congruence; try discriminate; try reflexivity).
Qed.

(** A call that throws has required nothing and registered nothing. *)
Lemma generate_throw_keeps_scope this module ctx e :
  fst (generate this module ctx) = Throw e ->
  the_runtimeRequirements (snd (generate this module ctx)) = runtimeRequirements ctx /\
  the_concatenationScope (snd (generate this module ctx)) = concatenationScope ctx.
Proof.
  run_generate.
  repeat (case_inner; try discriminate; try (split; reflexivity)).
Qed.

(** How the export emitter binds a value. *)
Definition emitted (ctx : GenerateContext) (value : string) : string :=
  match concatenationScope ctx with
  | Some _ => declareConst (runtimeTemplate ctx) NAMESPACE_OBJECT_EXPORT value
  | None => RuntimeGlobals_module ++ ".exports = " ++ value ++ ";"
  end.

(** *** The resource mode *)

(** The filename template of a call: the generator's override, else the
    configured [assetModuleFilename]. *)
Definition templateOf (this : AssetGenerator) (ctx : GenerateContext) : string :=
  Js.or_else (filename this)
    (OutputOptions.assetModuleFilename
       (RuntimeTemplate.outputOptions (runtimeTemplate ctx))).

(** The path of the module relative to the compiler's context, without
    a leading [./]. *)
Definition relativePathOf (this : AssetGenerator) (module : NormalModule.t) : string :=
  Js.stripDotSlash
    (makePathsRelative
       (compiler_context (compilation this))
       (Js.or_else (NormalModule.matchResource module)
                   (NormalModule.resource module))
       (compiler_root (compilation this))).

(** The digest of the salted content. *)
Definition fullHashOf (options : OutputOptions.t) (bytes : list byte) : string :=
  let hash := createHash (OutputOptions.hashFunction options) in
  let hash :=
    match OutputOptions.hashSalt options with
    | Some salt =>
        if Js.truthy_string salt then Hash_update hash (Text salt) else hash
    | None => hash
    end in
  Hash_digest (Hash_update hash (Bytes bytes)) (OutputOptions.hashDigest options).

(** The module as the path resolution sees it: the full content hash is
    recorded, the filename and the asset info are not yet. *)
Definition hashedModule (module : NormalModule.t) (ctx : GenerateContext)
    (src : Source) : NormalModule.t :=
  NormalModule.with_buildInfo
    (BuildInfo.set_fullContentHash
       (fullHashOf (RuntimeTemplate.outputOptions (runtimeTemplate ctx))
          (Source.buffer src)))
    module.

(** The path data of a call. *)
Definition pathDataOf (this : AssetGenerator) (module : NormalModule.t)
    (ctx : GenerateContext) (src : Source) : PathData.t RuntimeSpec ChunkGraph :=
  let options := RuntimeTemplate.outputOptions (runtimeTemplate ctx) in
  PathData.mk (hashedModule module ctx src) (runtime ctx)
    (relativePathOf this module) (chunkGraph ctx)
    (Js.slice0 (fullHashOf options (Source.buffer src))
       (OutputOptions.hashDigestLength options)).

(** The path resolution of a call. *)
Definition resolved (this : AssetGenerator) (module : NormalModule.t)
    (ctx : GenerateContext) (src : Source) : Js.completion (string * AssetInfo) :=
  getAssetPathWithInfo (compilation this) (templateOf this ctx)
    (pathDataOf this module ctx src).

(** The resource mode in one equation: the path resolution decides how
    the call ends, and the full content hash is recorded before it
    runs. *)
Lemma generate_resource this module ctx src :
  type ctx <> "asset" ->
  BuildInfo.dataUrl (NormalModule.buildInfo module) = false ->
  NormalModule.originalSource module = Some src ->
  generate this module ctx =
    match resolved this module ctx src with
    | Return (path, info) =>
        (Return (Some (RawSource (Text (emitted ctx
           (RuntimeGlobals_publicPath ++ " + " ++ JSON_stringify path))))),
         {| the_module :=
              NormalModule.with_buildInfo (BuildInfo.set_assetInfo info)
                (NormalModule.with_buildInfo (BuildInfo.set_filename path)
                   (hashedModule module ctx src));
            the_runtimeRequirements :=
              match concatenationScope ctx with
              | Some _ => {[ RuntimeGlobals_publicPath ]} ∪ runtimeRequirements ctx
              | None =>
                  {[ RuntimeGlobals_module ]} ∪
                  ({[ RuntimeGlobals_publicPath ]} ∪ runtimeRequirements ctx)
              end;
            the_concatenationScope :=
              option_map
                (fun scope => registerNamespaceExport scope NAMESPACE_OBJECT_EXPORT)
                (concatenationScope ctx) |})
    | Throw e =>
        (Throw e,
         {| the_module := hashedModule module ctx src;
            the_runtimeRequirements := runtimeRequirements ctx;
            the_concatenationScope := concatenationScope ctx |})
    end.
Proof.
  intros Ht%String.eqb_neq Hd Hs.
  unfold resolved, pathDataOf, hashedModule, fullHashOf, templateOf,
    relativePathOf, emitted.
  run_generate. rewrite Ht. reduce. rewrite Hd, Hs. reduce.
  destruct (getAssetPathWithInfo _ _ _) as [[path info]|e]; reduce;
    [|reflexivity].
  destruct (concatenationScope ctx); reflexivity.
Qed.

Lemma generate_resource_null this module ctx :
  type ctx <> "asset" ->
  BuildInfo.dataUrl (NormalModule.buildInfo module) = false ->
  NormalModule.originalSource module = None ->
  generate this module ctx = (Throw TypeError, initial module ctx).
Proof.
  intros Ht%String.eqb_neq Hd Hs. run_generate.
  rewrite Ht. reduce. rewrite Hd, Hs. reflexivity.
Qed.

(** A resource-mode call records the full content hash whenever there
    is content, however the path resolution ends. *)
Lemma generate_resource_fullContentHash this module ctx src :
  type ctx <> "asset" ->
  BuildInfo.dataUrl (NormalModule.buildInfo module) = false ->
  NormalModule.originalSource module = Some src ->
  BuildInfo.fullContentHash (NormalModule.buildInfo (module_after this module ctx)) =
    Some (fullHashOf (RuntimeTemplate.outputOptions (runtimeTemplate ctx))
            (Source.buffer src)).
Proof.
  intros Ht Hd Hs. unfold module_after.
  rewrite (generate_resource this module ctx src Ht Hd Hs).
  destruct (resolved this module ctx src) as [[path info]|e]; reflexivity.
Qed.

(** A resource-mode call returns exactly when its path resolution
    does. *)
Lemma generate_resource_returns this module ctx src :
  type ctx <> "asset" ->
  BuildInfo.dataUrl (NormalModule.buildInfo module) = false ->
  NormalModule.originalSource module = Some src ->
  returns this module ctx <-> exists r, resolved this module ctx src = Return r.
Proof.
  intros Ht Hd Hs. unfold returns.
  rewrite (generate_resource this module ctx src Ht Hd Hs).
  destruct (resolved this module ctx src) as [[path info]|e]; cbn [fst].
  - split; intros _; eexists; reflexivity.
  - split; intros [? H]; discriminate.
Qed.

(** A call that returns in the resource mode has set the three
    fields. *)
Lemma generate_resource_writes this module ctx out :
  type ctx <> "asset" ->
  BuildInfo.dataUrl (NormalModule.buildInfo module) = false ->
  fst (generate this module ctx) = Return out ->
  BuildInfo.written (NormalModule.buildInfo (module_after this module ctx)).
Proof.
  intros Ht Hd. unfold module_after.
  destruct (NormalModule.originalSource module) as [src|] eqn:Hs.
  - rewrite (generate_resource this module ctx src Ht Hd Hs).
    destruct (resolved this module ctx src) as [[path info]|e]; cbn [fst snd];
      [|discriminate].
    intros _. repeat split; cbn; eauto.
  - rewrite generate_resource_null by assumption. discriminate.
Qed.

Definition consistent (b : BuildInfo.t) : Prop :=
  BuildInfo.unset b \/ BuildInfo.written b.

(** Only the full content hash is set. *)
Definition hashOnly (b : BuildInfo.t) : Prop :=
  BuildInfo.filename b = None /\ BuildInfo.assetInfo b = None /\
  is_Some (BuildInfo.fullContentHash b).

Lemma generate_consistent this module ctx :
  returns this module ctx ->
  consistent (NormalModule.buildInfo module) ->
  consistent (NormalModule.buildInfo (module_after this module ctx)).
Proof.
  intros [out Hout] Hc.
  destruct (String.eqb (type ctx) "asset") eqn:Ht.
  - apply String.eqb_eq in Ht. unfold module_after.
    rewrite generate_asset by assumption. exact Hc.
  - apply String.eqb_neq in Ht.
    destruct (BuildInfo.dataUrl (NormalModule.buildInfo module)) eqn:Hd.
    + rewrite generate_dataUrl_keeps_module by assumption. exact Hc.
    + right. eapply generate_resource_writes; eassumption.
Qed.

(** The module after a sequence of calls, each with its own generator
    and context. *)
Fixpoint generate_all (calls : list (AssetGenerator * GenerateContext))
    (module : NormalModule.t) : NormalModule.t :=
  match calls with
  | [] => module
  | (this, ctx) :: rest => generate_all rest (module_after this module ctx)
  end.

(** C6 — For every module, [generate] with the requested kind "asset"
    returns the module's original content unchanged: nothing is
    encoded or hashed, the module (and so its build info) is not
    written, no runtime requirement is added and no export is
    registered. *)
Theorem generate_asset_verbatim this module ctx :
  type ctx = "asset" ->
  let '(outcome, store) := generate this module ctx in
  outcome = Return (NormalModule.originalSource module) /\
  the_module store = module /\
  the_runtimeRequirements store = runtimeRequirements ctx /\
  the_concatenationScope store = concatenationScope ctx.
Proof.
  intros Ht. rewrite generate_asset by assumption.
  unfold initial. cbn. auto.
Qed.

(** C5 (amended) — What [generate] does to the three result fields of
    the build info (filename, asset info, full content hash).  The
    asset kind and the data-url mode never write them.  The resource
    mode writes nothing when the original source is null; otherwise it
    records the full content hash, then resolves the path, then records
    filename and asset info: when the path resolution returns all three
    are set, and when it throws the full content hash is set and the
    other two are as before.  So after a call that returns the fields
    of a module that had them all unset or all set are again all unset
    or all set, and all set in the resource mode; after a call that
    throws, a module that had them all unset has them all unset or has
    the full content hash alone. *)
Theorem generate_buildInfo_all_or_none this module ctx :
  let before := NormalModule.buildInfo module in
  let after := NormalModule.buildInfo (module_after this module ctx) in
  (type ctx = "asset" \/ BuildInfo.dataUrl before = true -> after = before) /\
  (type ctx <> "asset" -> BuildInfo.dataUrl before = false ->
     match NormalModule.originalSource module with
     | None => after = before
     | Some src =>
         BuildInfo.fullContentHash after =
           Some (fullHashOf (RuntimeTemplate.outputOptions (runtimeTemplate ctx))
                   (Source.buffer src)) /\
         match resolved this module ctx src with
         | Return (path, info) =>
             BuildInfo.filename after = Some path /\
             BuildInfo.assetInfo after = Some info
         | Throw _ =>
             BuildInfo.filename after = BuildInfo.filename before /\
             BuildInfo.assetInfo after = BuildInfo.assetInfo before
         end
     end) /\
  (returns this module ctx ->
     (BuildInfo.unset before \/ BuildInfo.written before ->
      BuildInfo.unset after \/ BuildInfo.written after) /\
     (type ctx <> "asset" -> BuildInfo.dataUrl before = false ->
      BuildInfo.written after)) /\
  (forall e, fst (generate this module ctx) = Throw e ->
     BuildInfo.unset before ->
     BuildInfo.unset after \/ hashOnly after).
Proof.
  cbv zeta. split; [|split; [|split]].
  - intros [Ht|Hd].
    + unfold module_after. rewrite generate_asset by assumption. reflexivity.
    + rewrite generate_dataUrl_keeps_module by assumption. reflexivity.
  - intros Ht Hd.
    destruct (NormalModule.originalSource module) as [src|] eqn:Hs.
    + split; [apply generate_resource_fullContentHash; assumption|].
      unfold module_after.
      rewrite (generate_resource this module ctx src Ht Hd Hs).
      destruct (resolved this module ctx src) as [[path info]|e];
        split; reflexivity.
    + unfold module_after. rewrite generate_resource_null by assumption.
      reflexivity.
  - intros Hreturns. split.
    + apply generate_consistent. exact Hreturns.
    + intros Ht Hd. destruct Hreturns as [out Hout].
      eapply generate_resource_writes; eassumption.
  - intros e Hthrow (Hname & Hinfo & Hhash).
    destruct (String.eqb (type ctx) "asset") eqn:Ht.
    { apply String.eqb_eq in Ht. unfold module_after.
      rewrite generate_asset by assumption. left. repeat split; assumption. }
    apply String.eqb_neq in Ht.
    destruct (BuildInfo.dataUrl (NormalModule.buildInfo module)) eqn:Hd.
    { rewrite generate_dataUrl_keeps_module by assumption.
      left. repeat split; assumption. }
    destruct (NormalModule.originalSource module) as [src|] eqn:Hs.
    + right. revert Hthrow. unfold module_after.
      rewrite (generate_resource this module ctx src Ht Hd Hs).
      destruct (resolved this module ctx src) as [[path info]|e'];
        cbn [fst snd]; [discriminate|].
      intros _. repeat split; cbn; eauto.
    + unfold module_after. rewrite generate_resource_null by assumption.
      left. repeat split; assumption.
Qed.

(** *** getTypes, getSize, updateHash *)

(** C7 (amended) — [getTypes] is a function of the module's data-url
    flag only: it returns the set of "javascript" when the flag is set
    and the set of "javascript" and "asset" otherwise; these two
    constant sets are the only results, and two modules with the same
    flag (in particular one module asked twice) get equal sets. *)
Theorem getTypes_by_flag (module module' : NormalModule.t) :
  BuildInfo.dataUrl (NormalModule.buildInfo module) =
    BuildInfo.dataUrl (NormalModule.buildInfo module') ->
  getTypes module = getTypes module' /\
  getTypes module =
    (if BuildInfo.dataUrl (NormalModule.buildInfo module)
     then {[ "javascript" ]} else {[ "javascript"; "asset" ]}) /\
  (getTypes module = JS_TYPES \/ getTypes module = JS_AND_ASSET_TYPES).
Proof.
  intros Hflag. unfold getTypes. rewrite <- Hflag.
  destruct (BuildInfo.dataUrl (NormalModule.buildInfo module)); auto.
Qed.

(** C8 — With a kind other than "asset" (the default kind), [getSize]
    of a data-url module whose original source has size S is
    S * 1.34 + 36 in binary64 arithmetic, which is 36 for S = 0; of a
    module that is not data-url it is 42 whatever the content. *)
Theorem getSize_default_estimate (module : NormalModule.t) (type : option string) :
  type <> Some "asset" ->
  (forall src,
      BuildInfo.dataUrl (NormalModule.buildInfo module) = true ->
      NormalModule.originalSource module = Some src ->
      getSize module type = (Js.number_of_Z (Source.size src) * 1.34 + 36)%float /\
      (Source.size src = 0%Z -> getSize module type = 36%float)) /\
  (BuildInfo.dataUrl (NormalModule.buildInfo module) = false ->
   getSize module type = 42%float).
Proof.
  intros Ht.
  assert (match type with Some t => String.eqb t "asset" | None => false end = false)
    as Hk.
  { destruct type as [t|]; [|reflexivity].
    apply String.eqb_neq. congruence. }
  unfold getSize. rewrite Hk. split.
  - intros src Hd Hs. rewrite Hd, Hs. split; [reflexivity|].
    intros ->. reflexivity.
  - intros ->. reflexivity.
Qed.

(** C10 — With a kind other than "asset", [getSize] of a data-url
    module whose original source is null is 0, not 36. *)
Theorem getSize_inline_without_content (module : NormalModule.t) (type : option string) :
  type <> Some "asset" ->
  BuildInfo.dataUrl (NormalModule.buildInfo module) = true ->
  NormalModule.originalSource module = None ->
  getSize module type = 0%float /\ getSize module type <> 36%float.
Proof.
  intros Ht Hd Hs.
  assert (getSize module type = 0%float) as H0.
  { unfold getSize. rewrite Hd, Hs.
    destruct type as [t|]; [|reflexivity].
    destruct (String.eqb t "asset"); reflexivity. }
  split; [exact H0|]. rewrite H0. intros H.
  apply (f_equal (fun x => PrimFloat.eqb x 0)) in H.
  vm_compute in H. discriminate.
Qed.

(** C9 (amended) — [updateHash] feeds the hash exactly one of the two
    constant tokens "data-url" and "resource", chosen by the module's
    data-url flag alone: two modules with the same flag (one module
    asked twice) feed equal tokens, and the two tokens differ. *)
Theorem updateHash_token (hash : Hash) (module module' : NormalModule.t) :
  BuildInfo.dataUrl (NormalModule.buildInfo module) =
    BuildInfo.dataUrl (NormalModule.buildInfo module') ->
  updateHash hash module = updateHash hash module' /\
  updateHash hash module =
    Hash_update hash
      (Text (if BuildInfo.dataUrl (NormalModule.buildInfo module)
             then "data-url" else "resource")) /\
  Text "data-url" <> Text "resource".
Proof.
  intros Hflag. unfold updateHash. rewrite <- Hflag.
  repeat split. discriminate.
Qed.

(** *** The declarative data-url variant *)

(** A string option that holds a non-empty string. *)
Definition present (o : option string) : bool :=
  match o with
  | Some s => Js.truthy_string s
  | None => false
  end.

(** The mimetype the generator settles on: the override, else the
    lookup by extension. *)
Definition resolvedMimetype (mimetype : option string) (ext : string)
  : option string :=
  match Js.or_lookup mimetype (mimeTypes_lookup ext) with
  | Some m => if Js.truthy_string m then Some m else None
  | None => None
  end.

Definition supportedEncoding (encoding : Js.value) : Prop :=
  encoding = Js.Str "base64" \/ encoding = Js.Boolean false.

(** The text that encoding [false] hands to [encodeURI]: the stored
    string, or the UTF-8 decoding of the stored buffer. *)
Definition textOf (src : Source) : string :=
  match Source.source src with
  | Text content => content
  | Bytes content => Utf8.decode content
  end.

Lemma resolvedMimetype_None (mimetype : option string) (ext : string) :
  resolvedMimetype mimetype ext = None <->
  present mimetype = false /\ present (mimeTypes_lookup ext) = false.
Proof.
  unfold resolvedMimetype, Js.or_lookup, present.
  destruct mimetype as [m|]; [destruct (Js.truthy_string m) eqn:Hm|];
    [rewrite Hm| |];
    (destruct (mimeTypes_lookup ext) as [l|];
     [destruct (Js.truthy_string l)|]); intuition congruence.
Qed.

Lemma supportedEncoding_dec (encoding : Js.value) :
  {supportedEncoding encoding} + {~ supportedEncoding encoding}.
Proof.
  unfold supportedEncoding.
  destruct encoding as [| |[|]|e];
    try (right; intros [H|H]; discriminate);
    try (left; right; reflexivity).
  destruct (String.eqb e "base64") eqn:He.
  - apply String.eqb_eq in He. subst. left. left. reflexivity.
  - apply String.eqb_neq in He. right. intros [H|H]; congruence.
Qed.

(** A buffer decodes to text without unpaired surrogates; only a stored
    string can hold one. *)
Lemma textOf_surrogate (src : Source) :
  Utf8.lone_surrogate (textOf src) = true ->
  exists content, src = RawSource (Text content) /\
                  Utf8.lone_surrogate content = true.
Proof.
  destruct src as [[content|content]]; unfold textOf; cbn [Source.source].
  - eauto.
  - rewrite Utf8.decode_no_surrogate. discriminate.
Qed.

(** Entering the declarative branch of the data-url mode. *)
Ltac enter_declarative Ht Hd Ho :=
  run_generate; rewrite Ht; reduce; rewrite Hd, Ho; reduce.

Lemma generate_no_mimetype this module ctx encoding mimetype :
  type ctx <> "asset" ->
  BuildInfo.dataUrl (NormalModule.buildInfo module) = true ->
  dataUrlOptions this = Some (DataUrlObject encoding mimetype) ->
  resolvedMimetype mimetype (path_extname (nameForCondition module)) = None ->
  fst (generate this module ctx) =
    Throw (Error (noMimetypeMessage (path_extname (nameForCondition module)))).
Proof.
  intros Ht%String.eqb_neq Hd Ho Hm. unfold resolvedMimetype in Hm.
  enter_declarative Ht Hd Ho.
  destruct (Js.or_lookup _ _) as [m|]; [|reflexivity].
  destruct (Js.truthy_string m); [discriminate|reflexivity].
Qed.

Lemma generate_unsupported_encoding this module ctx encoding mimetype mimeType :
  type ctx <> "asset" ->
  BuildInfo.dataUrl (NormalModule.buildInfo module) = true ->
  dataUrlOptions this = Some (DataUrlObject encoding mimetype) ->
  resolvedMimetype mimetype (path_extname (nameForCondition module)) = Some mimeType ->
  ~ supportedEncoding encoding ->
  fst (generate this module ctx) =
    Throw (Error (unsupportedEncodingMessage encoding)).
Proof.
  intros Ht%String.eqb_neq Hd Ho Hm He. unfold resolvedMimetype in Hm.
  unfold supportedEncoding in He.
  enter_declarative Ht Hd Ho.
  destruct (Js.or_lookup _ _) as [m|]; [|discriminate].
  destruct (Js.truthy_string m); [|discriminate]. reduce.
  destruct encoding as [| |[|]|e]; try reflexivity.
  - exfalso. apply He. right. reflexivity.
  - destruct (String.eqb e "base64") eqn:E; [|reflexivity].
    apply String.eqb_eq in E. subst e. exfalso. apply He. left. reflexivity.
Qed.

(** The data URL of a supported encoding. *)
Lemma generate_dataUrl_base64 this module ctx mimetype mimeType src :
  type ctx <> "asset" ->
  BuildInfo.dataUrl (NormalModule.buildInfo module) = true ->
  dataUrlOptions this = Some (DataUrlObject (Js.Str "base64") mimetype) ->
  resolvedMimetype mimetype (path_extname (nameForCondition module)) = Some mimeType ->
  NormalModule.originalSource module = Some src ->
  fst (generate this module ctx) =
    Return (Some (RawSource (Text (emitted ctx (JSON_stringify
      ("data:" ++ mimeType ++ ";base64," ++ Base64.encode (Source.buffer src))))))).
Proof.
  intros Ht%String.eqb_neq Hd Ho Hm Hs. unfold resolvedMimetype in Hm.
  enter_declarative Ht Hd Ho.
  destruct (Js.or_lookup _ _) as [m|]; [|discriminate].
  destruct (Js.truthy_string m); [|discriminate].
  injection Hm as ->. reduce. rewrite Hs. reduce.
  unfold emitted. destruct (concatenationScope ctx); reflexivity.
Qed.

(** With encoding [false], [encodeURI] decides how the call ends. *)
Lemma generate_dataUrl_false this module ctx mimetype mimeType src :
  type ctx <> "asset" ->
  BuildInfo.dataUrl (NormalModule.buildInfo module) = true ->
  dataUrlOptions this = Some (DataUrlObject (Js.Boolean false) mimetype) ->
  resolvedMimetype mimetype (path_extname (nameForCondition module)) = Some mimeType ->
  NormalModule.originalSource module = Some src ->
  fst (generate this module ctx) =
    match URI.encodeURI (textOf src) with
    | Some payload =>
        Return (Some (RawSource (Text (emitted ctx (JSON_stringify
          ("data:" ++ mimeType ++ "," ++ payload))))))
    | None => Throw URIError
    end.
Proof.
  intros Ht%String.eqb_neq Hd Ho Hm Hs. unfold resolvedMimetype in Hm.
  enter_declarative Ht Hd Ho.
  destruct (Js.or_lookup _ _) as [m|]; [|discriminate].
  destruct (Js.truthy_string m); [|discriminate].
  injection Hm as ->. reduce. rewrite Hs. reduce.
  unfold emitted, textOf.
  destruct (Source.source src) as [content|content];
    (destruct (URI.encodeURI _); reduce; [|reflexivity]);
    destruct (concatenationScope ctx); reflexivity.
Qed.

(** Text without an unpaired surrogate is encoded. *)
Lemma generate_dataUrl_false_returns this module ctx mimetype mimeType src :
  type ctx <> "asset" ->
  BuildInfo.dataUrl (NormalModule.buildInfo module) = true ->
  dataUrlOptions this = Some (DataUrlObject (Js.Boolean false) mimetype) ->
  resolvedMimetype mimetype (path_extname (nameForCondition module)) = Some mimeType ->
  NormalModule.originalSource module = Some src ->
  Utf8.lone_surrogate (textOf src) = false ->
  fst (generate this module ctx) =
    Return (Some (RawSource (Text (emitted ctx (JSON_stringify
      ("data:" ++ mimeType ++ "," ++ URI.escape (textOf src))))))).
Proof.
  intros Ht Hd Ho Hm Hs Htext.
  rewrite (generate_dataUrl_false this module ctx mimetype mimeType src)
    by assumption.
  apply URI.encodeURI_returns in Htext. rewrite Htext. reflexivity.
Qed.

(** Text with an unpaired surrogate is a URIError. *)
Lemma generate_dataUrl_false_throws this module ctx mimetype mimeType src :
  type ctx <> "asset" ->
  BuildInfo.dataUrl (NormalModule.buildInfo module) = true ->
  dataUrlOptions this = Some (DataUrlObject (Js.Boolean false) mimetype) ->
  resolvedMimetype mimetype (path_extname (nameForCondition module)) = Some mimeType ->
  NormalModule.originalSource module = Some src ->
  Utf8.lone_surrogate (textOf src) = true ->
  fst (generate this module ctx) = Throw URIError.
Proof.
  intros Ht Hd Ho Hm Hs Htext.
  rewrite (generate_dataUrl_false this module ctx mimetype mimeType src)
    by assumption.
  apply URI.encodeURI_throws in Htext. rewrite Htext. reflexivity.
Qed.

Lemma generate_dataUrl_null this module ctx encoding mimetype mimeType :
  type ctx <> "asset" ->
  BuildInfo.dataUrl (NormalModule.buildInfo module) = true ->
  dataUrlOptions this = Some (DataUrlObject encoding mimetype) ->
  resolvedMimetype mimetype (path_extname (nameForCondition module)) = Some mimeType ->
  supportedEncoding encoding ->
  NormalModule.originalSource module = None ->
  fst (generate this module ctx) = Throw TypeError.
Proof.
  intros Ht%String.eqb_neq Hd Ho Hm He Hs. unfold resolvedMimetype in Hm.
  enter_declarative Ht Hd Ho.
  destruct (Js.or_lookup _ _) as [m|]; [|discriminate].
  destruct (Js.truthy_string m); [|discriminate]. reduce.
  destruct He as [-> | ->]; reduce; rewrite Hs; reflexivity.
Qed.

(** The content that makes [encodeURI] throw: a stored string with an
    unpaired surrogate, under encoding [false]. *)
Definition malformed (encoding : Js.value) (module : NormalModule.t) : Prop :=
  encoding = Js.Boolean false /\
  exists content,
    NormalModule.originalSource module = Some (RawSource (Text content)) /\
    Utf8.lone_surrogate content = true.

(** The five ways a declarative data-url call ends. *)
Lemma generate_dataUrl_cases this module ctx encoding mimetype :
  type ctx <> "asset" ->
  BuildInfo.dataUrl (NormalModule.buildInfo module) = true ->
  dataUrlOptions this = Some (DataUrlObject encoding mimetype) ->
  let ext := path_extname (nameForCondition module) in
  let noMimetype :=
    present mimetype = false /\ present (mimeTypes_lookup ext) = false in
  let outcome := fst (generate this module ctx) in
  (noMimetype /\ outcome = Throw (Error (noMimetypeMessage ext))) \/
  (~ noMimetype /\ ~ supportedEncoding encoding /\
   outcome = Throw (Error (unsupportedEncodingMessage encoding))) \/
  (~ noMimetype /\ supportedEncoding encoding /\
   NormalModule.originalSource module = None /\ outcome = Throw TypeError) \/
  (~ noMimetype /\ supportedEncoding encoding /\
   malformed encoding module /\ outcome = Throw URIError) \/
  (~ noMimetype /\ supportedEncoding encoding /\
   NormalModule.originalSource module <> None /\ ~ malformed encoding module /\
   exists out, outcome = Return (Some out)).
Proof.
  intros Ht Hd Ho ext noMimetype outcome.
  assert (noMimetype <-> resolvedMimetype mimetype ext = None) as HnoM
    by (symmetry; apply resolvedMimetype_None).
  destruct (resolvedMimetype mimetype ext) as [mimeType|] eqn:Hm.
  - assert (~ noMimetype) as Hn by (rewrite HnoM; discriminate).
    right. destruct (supportedEncoding_dec encoding) as [He|He].
    + right. destruct (NormalModule.originalSource module) as [src|] eqn:Hs.
      * right. destruct He as [-> | ->].
        -- right. split; [exact Hn|]. split; [left; reflexivity|].
           split; [discriminate|]. split; [intros [H _]; discriminate|].
           eexists. eapply generate_dataUrl_base64; eassumption.
        -- destruct (Utf8.lone_surrogate (textOf src)) eqn:Htext.
           ++ left. split; [exact Hn|]. split; [right; reflexivity|].
              split.
              ** split; [reflexivity|].
                 destruct (textOf_surrogate src Htext) as (content & -> & Hc).
                 eauto.
              ** eapply generate_dataUrl_false_throws; eassumption.
           ++ right. split; [exact Hn|]. split; [right; reflexivity|].
              split; [discriminate|]. split.
              ** intros (_ & content & Hs' & Hc).
                 rewrite Hs in Hs'. injection Hs' as ->.
                 unfold textOf in Htext. cbn [Source.source] in Htext.
                 congruence.
              ** eexists. eapply generate_dataUrl_false_returns; eassumption.
      * left. split; [exact Hn|]. split; [exact He|]. split; [reflexivity|].
        eapply generate_dataUrl_null; eassumption.
    + left. split; [exact Hn|]. split; [exact He|].
      eapply generate_unsupported_encoding; eassumption.
  - left. split; [apply HnoM; reflexivity|].
    eapply generate_no_mimetype; eassumption.
Qed.

(** C4 (amended) — In the declarative data-url variant [generate]
    throws an [Error] exactly when (a) no mimetype resolves, neither
    the override nor the lookup by extension, or (b) the encoding is
    neither "base64" nor [false]; (a) is tested first.  The message of
    (a) is the sentence of the source with the extension between
    quotation marks, the message of (b) is "Unsupported encoding" with
    the encoding between apostrophes.  These are not the only
    exceptions: with a mimetype and a supported encoding, a null
    original source is a TypeError, and under encoding [false] a stored
    string with an unpaired surrogate is the URIError of [encodeURI];
    every other call returns a source.  A call that throws leaves the
    module, the runtime requirements and the scope untouched. *)
Theorem generate_dataUrl_error_iff this module ctx encoding mimetype :
  type ctx <> "asset" ->
  BuildInfo.dataUrl (NormalModule.buildInfo module) = true ->
  dataUrlOptions this = Some (DataUrlObject encoding mimetype) ->
  let ext := path_extname (nameForCondition module) in
  let quote := String "034"%char EmptyString in
  let noMimetype :=
    present mimetype = false /\ present (mimeTypes_lookup ext) = false in
  let outcome := fst (generate this module ctx) in
  ((exists message, outcome = Throw (Error message)) <->
   noMimetype \/ ~ supportedEncoding encoding) /\
  (noMimetype ->
   outcome =
     Throw (Error
       ("DataUrl can't be generated automatically, " ++
        "because there is no mimetype for " ++ quote ++ ext ++ quote ++
        " in mimetype database. " ++
        "Either pass a mimetype via " ++ quote ++ "generator.mimetype" ++ quote ++
        " or " ++
        "use type: " ++ quote ++ "asset/resource" ++ quote ++
        " to create a resource file instead of a DataUrl"))) /\
  (~ noMimetype -> ~ supportedEncoding encoding ->
   outcome =
     Throw (Error ("Unsupported encoding '" ++ Js.toString encoding ++ "'"))) /\
  (outcome = Throw TypeError <->
   ~ noMimetype /\ supportedEncoding encoding /\
   NormalModule.originalSource module = None) /\
  (outcome = Throw URIError <->
   ~ noMimetype /\ encoding = Js.Boolean false /\
   exists content,
     NormalModule.originalSource module = Some (RawSource (Text content)) /\
     Utf8.lone_surrogate content = true) /\
  ((exists out, outcome = Return (Some out)) \/
   (exists message, outcome = Throw (Error message)) \/
   outcome = Throw TypeError \/ outcome = Throw URIError) /\
  (forall e, outcome = Throw e ->
     snd (generate this module ctx) = initial module ctx).
Proof.
  intros Ht Hd Ho ext quote noMimetype outcome.
  pose proof (generate_dataUrl_cases this module ctx encoding mimetype Ht Hd Ho)
    as Hcases.
  cbv zeta in Hcases. fold ext in Hcases. fold noMimetype in Hcases.
  fold outcome in Hcases.
  change (noMimetypeMessage ext) with
    ("DataUrl can't be generated automatically, " ++
     "because there is no mimetype for " ++ quote ++ ext ++ quote ++
     " in mimetype database. " ++
     "Either pass a mimetype via " ++ quote ++ "generator.mimetype" ++ quote ++
     " or " ++
     "use type: " ++ quote ++ "asset/resource" ++ quote ++
     " to create a resource file instead of a DataUrl") in Hcases.
  change (unsupportedEncodingMessage encoding) with
    ("Unsupported encoding '" ++ Js.toString encoding ++ "'") in Hcases.
  unfold malformed in Hcases.
  split; [|split; [|split; [|split; [|split; [|split]]]]].
  - split.
    + intros [message Hthrow].
      destruct Hcases as [(Hn & _)|[(_ & He & _)|[(_ & _ & _ & H)|
        [(_ & _ & _ & H)|(_ & _ & _ & _ & out & H)]]]]; auto;
        rewrite H in Hthrow; discriminate.
    + intros [Hn|He];
        destruct Hcases as [(Hn' & H)|[(Hn' & He' & H)|[(Hn' & He' & _)|
          [(Hn' & He' & _)|(Hn' & He' & _)]]]]; eauto; contradiction.
  - intros Hn.
    destruct Hcases as [(_ & H)|[(Hn' & _)|[(Hn' & _)|[(Hn' & _)|(Hn' & _)]]]];
      [exact H|contradiction..].
  - intros Hn He.
    destruct Hcases as [(Hn' & _)|[(_ & _ & H)|[(_ & He' & _)|
      [(_ & He' & _)|(_ & He' & _)]]]]; [contradiction|exact H|contradiction..].
  - split.
    + intros Hthrow.
      destruct Hcases as [(_ & H)|[(_ & _ & H)|[(Hn & He & Hs & _)|
        [(_ & _ & _ & H)|(_ & _ & _ & _ & out & H)]]]]; auto;
        rewrite H in Hthrow; discriminate.
    + intros (Hn & He & Hs).
      destruct Hcases as [(Hn' & _)|[(_ & He' & _)|[(_ & _ & _ & H)|
        [(_ & _ & (_ & content & Hs' & _) & _)|(_ & _ & Hs' & _)]]]];
        [contradiction|contradiction|exact H|congruence|contradiction].
  - split.
    + intros Hthrow.
      destruct Hcases as [(_ & H)|[(_ & _ & H)|[(_ & _ & _ & H)|
        [(Hn & _ & (Hfalse & Hcontent) & _)|(_ & _ & _ & _ & out & H)]]]];
        auto; rewrite H in Hthrow; discriminate.
    + intros (Hn & He & Hcontent).
      destruct Hcases as [(Hn' & _)|[(_ & He' & _)|[(_ & _ & Hs & _)|
        [(_ & _ & _ & H)|(_ & _ & _ & Hno & _)]]]].
      * contradiction.
      * exfalso. apply He'. right. exact He.
      * destruct Hcontent as (content & Hs' & _). congruence.
      * exact H.
      * exfalso. apply Hno. split; assumption.
  - destruct Hcases as [(_ & H)|[(_ & _ & H)|[(_ & _ & _ & H)|
      [(_ & _ & _ & H)|(_ & _ & _ & _ & H)]]]]; eauto.
  - intros e. apply generate_dataUrl_throw_no_effect. exact Hd.
Qed.

(** C2 — For every ASCII text T, held as a string or as the buffer of
    its bytes: in the data-url mode with declarative encoding [false]
    (and a mimetype that resolves) [generate] produces the data URL
    [data:<mimetype>,<payload>], and percent-decoding the payload
    gives exactly T; for T = "hello" the payload is "hello". *)
Theorem generate_dataUrl_percent_roundtrip
    this module ctx mimetype mimeType (T : string) (content : Content) :
  type ctx <> "asset" ->
  BuildInfo.dataUrl (NormalModule.buildInfo module) = true ->
  dataUrlOptions this = Some (DataUrlObject (Js.Boolean false) mimetype) ->
  resolvedMimetype mimetype (path_extname (nameForCondition module)) = Some mimeType ->
  Utf8.all_ascii T = true ->
  content = Text T \/ content = Bytes (list_byte_of_string T) ->
  NormalModule.originalSource module = Some (RawSource content) ->
  exists payload,
    fst (generate this module ctx) =
      Return (Some (RawSource (Text (emitted ctx (JSON_stringify
        ("data:" ++ mimeType ++ "," ++ payload)))))) /\
    URI.percentDecode payload = Some T /\
    (T = "hello" -> payload = "hello").
Proof.
  intros Ht Hd Ho Hm Hascii Hcontent Hs.
  assert (textOf (RawSource content) = T) as Htext.
  { unfold textOf. destruct Hcontent as [-> | ->]; cbn [Source.source].
    - reflexivity.
    - apply Utf8.decode_ascii. exact Hascii. }
  exists (URI.escape T).
  split; [|split].
  - rewrite <- Htext.
    eapply generate_dataUrl_false_returns; try eassumption.
    rewrite Htext. apply Utf8.ascii_no_surrogate. exact Hascii.
  - apply URI.percentDecode_escape.
  - intros ->. reflexivity.
Qed.

(** C3 — For every byte content C: in the data-url mode with
    declarative encoding "base64" and a mimetype that resolves,
    [generate] produces the data URL [data:<mimetype>;base64,<payload>]
    and base64-decoding the payload gives exactly C. *)
Theorem generate_dataUrl_base64_roundtrip
    this module ctx mimetype mimeType (src : Source) (C : list byte) :
  type ctx <> "asset" ->
  BuildInfo.dataUrl (NormalModule.buildInfo module) = true ->
  dataUrlOptions this = Some (DataUrlObject (Js.Str "base64") mimetype) ->
  resolvedMimetype mimetype (path_extname (nameForCondition module)) = Some mimeType ->
  NormalModule.originalSource module = Some src ->
  Source.buffer src = C ->
  exists payload,
    fst (generate this module ctx) =
      Return (Some (RawSource (Text (emitted ctx (JSON_stringify
        ("data:" ++ mimeType ++ ";base64," ++ payload)))))) /\
    Base64.decode payload = Some C.
Proof.
  intros Ht Hd Ho Hm Hs <-.
  exists (Base64.encode (Source.buffer src)). split.
  - eapply generate_dataUrl_base64; eassumption.
  - apply Base64.decode_encode.
Qed.

(** *** Two calls in the resource mode *)

Lemma generate_frame this module ctx :
  let after := module_after this module ctx in
  NormalModule.originalSource after = NormalModule.originalSource module /\
  NormalModule.matchResource after = NormalModule.matchResource module /\
  NormalModule.resource after = NormalModule.resource module /\
  BuildInfo.dataUrl (NormalModule.buildInfo after) =
    BuildInfo.dataUrl (NormalModule.buildInfo module).
Proof.
  cbv zeta. unfold module_after. run_generate.
  repeat (case_inner; try (cbn; auto; fail)).
Qed.

(** Two modules that differ at most in the stored full content hash. *)
Definition sameButHash (m m' : NormalModule.t) : Prop :=
  NormalModule.originalSource m = NormalModule.originalSource m' /\
  NormalModule.matchResource m = NormalModule.matchResource m' /\
  NormalModule.resource m = NormalModule.resource m' /\
  BuildInfo.dataUrl (NormalModule.buildInfo m) =
    BuildInfo.dataUrl (NormalModule.buildInfo m') /\
  BuildInfo.filename (NormalModule.buildInfo m) =
    BuildInfo.filename (NormalModule.buildInfo m') /\
  BuildInfo.assetInfo (NormalModule.buildInfo m) =
    BuildInfo.assetInfo (NormalModule.buildInfo m').

(** Two modules that differ at most in the three result fields. *)
Definition sameButResults (m m' : NormalModule.t) : Prop :=
  NormalModule.originalSource m = NormalModule.originalSource m' /\
  NormalModule.matchResource m = NormalModule.matchResource m' /\
  NormalModule.resource m = NormalModule.resource m' /\
  BuildInfo.dataUrl (NormalModule.buildInfo m) =
    BuildInfo.dataUrl (NormalModule.buildInfo m').

(** A path templating that does not read the result fields of the
    module it is handed. *)
Definition templating_ignores_results : Prop :=
  forall (c : Compilation) (template : string) (m m' : NormalModule.t)
         (r : RuntimeSpec) (path : string) (g : ChunkGraph) (contentHash : string),
    sameButResults m m' ->
    getAssetPathWithInfo c template (PathData.mk m r path g contentHash) =
    getAssetPathWithInfo c template (PathData.mk m' r path g contentHash).

Lemma sameButHash_hashed (m m' : NormalModule.t) (h : string) :
  sameButHash m m' ->
  NormalModule.with_buildInfo (BuildInfo.set_fullContentHash h) m =
  NormalModule.with_buildInfo (BuildInfo.set_fullContentHash h) m'.
Proof.
  destruct m as [s [d f a c] mr r], m' as [s' [d' f' a' c'] mr' r'].
  unfold sameButHash. cbn. intros (-> & -> & -> & -> & -> & ->). reflexivity.
Qed.

Lemma sameButResults_after this module ctx :
  sameButResults (module_after this module ctx) module.
Proof. apply generate_frame. Qed.

(** The relative path is read off the compilation and the resource. *)
Lemma relativePathOf_same this this' (m m' : NormalModule.t) :
  compilation this = compilation this' ->
  NormalModule.matchResource m = NormalModule.matchResource m' ->
  NormalModule.resource m = NormalModule.resource m' ->
  relativePathOf this m = relativePathOf this' m'.
Proof. unfold relativePathOf. intros -> -> ->. reflexivity. Qed.

(** What a returning resource-mode call has recorded. *)
Lemma generate_resource_recorded this module ctx src path info :
  type ctx <> "asset" ->
  BuildInfo.dataUrl (NormalModule.buildInfo module) = false ->
  NormalModule.originalSource module = Some src ->
  resolved this module ctx src = Return (path, info) ->
  let after := NormalModule.buildInfo (module_after this module ctx) in
  BuildInfo.filename after = Some path /\
  BuildInfo.assetInfo after = Some info /\
  fst (generate this module ctx) =
    Return (Some (RawSource (Text (emitted ctx
      (RuntimeGlobals_publicPath ++ " + " ++ JSON_stringify path))))).
Proof.
  intros Ht Hd Hs Hr. cbv zeta. unfold module_after.
  rewrite (generate_resource this module ctx src Ht Hd Hs), Hr.
  repeat split.
Qed.

(** C1 (amended) — Two resource-mode calls with identical original
    bytes, hash function, salt, digest encoding and digest length store
    the same full content hash in the build info, whatever else differs
    and however the path resolution ends.  They store the same resolved
    filename (and asset info), and one returns exactly when the other
    does, when they also have an identical filename template and the
    path resolution is handed the same compilation, runtime and chunk
    graph and a module that is the same apart from its stored full
    content hash, or, for a path templating that does not read the
    result fields of the build info, apart from its three result
    fields.  For such a templating a call repeated on the module the
    first call wrote stores what the first call stored.  An identical
    template and relative path alone do not determine the filename. *)
Theorem generate_resource_deterministic
    (this this' : AssetGenerator) (module module' : NormalModule.t)
    (ctx ctx' : GenerateContext) (src src' : Source) :
  type ctx <> "asset" -> type ctx' <> "asset" ->
  BuildInfo.dataUrl (NormalModule.buildInfo module) = false ->
  BuildInfo.dataUrl (NormalModule.buildInfo module') = false ->
  NormalModule.originalSource module = Some src ->
  NormalModule.originalSource module' = Some src' ->
  let options := RuntimeTemplate.outputOptions (runtimeTemplate ctx) in
  let options' := RuntimeTemplate.outputOptions (runtimeTemplate ctx') in
  Source.buffer src = Source.buffer src' ->
  OutputOptions.hashFunction options = OutputOptions.hashFunction options' ->
  OutputOptions.hashSalt options = OutputOptions.hashSalt options' ->
  OutputOptions.hashDigest options = OutputOptions.hashDigest options' ->
  OutputOptions.hashDigestLength options = OutputOptions.hashDigestLength options' ->
  let after := NormalModule.buildInfo (module_after this module ctx) in
  let after' := NormalModule.buildInfo (module_after this' module' ctx') in
  (is_Some (BuildInfo.fullContentHash after) /\
   BuildInfo.fullContentHash after = BuildInfo.fullContentHash after') /\
  (templateOf this ctx = templateOf this' ctx' ->
   compilation this = compilation this' ->
   runtime ctx = runtime ctx' ->
   chunkGraph ctx = chunkGraph ctx' ->
   sameButHash module module' \/
   (templating_ignores_results /\ sameButResults module module') ->
   (returns this module ctx <-> returns this' module' ctx') /\
   (returns this module ctx ->
    is_Some (BuildInfo.filename after) /\
    BuildInfo.filename after = BuildInfo.filename after' /\
    BuildInfo.assetInfo after = BuildInfo.assetInfo after')) /\
  (templating_ignores_results ->
   returns this module ctx ->
   let again :=
     NormalModule.buildInfo
       (module_after this (module_after this module ctx) ctx) in
   BuildInfo.fullContentHash again = BuildInfo.fullContentHash after /\
   BuildInfo.filename again = BuildInfo.filename after /\
   BuildInfo.assetInfo again = BuildInfo.assetInfo after).
Proof.
  intros Ht Ht' Hd Hd' Hs Hs' options options' Hbytes Hf Hsalt Hdigest Hlen
    after after'.
  pose proof (generate_resource_fullContentHash this module ctx src Ht Hd Hs)
    as Hfull.
  pose proof (generate_resource_fullContentHash this' module' ctx' src' Ht' Hd' Hs')
    as Hfull'.
  fold options in Hfull. fold options' in Hfull'.
  fold after in Hfull. fold after' in Hfull'.
  assert (fullHashOf options (Source.buffer src) =
          fullHashOf options' (Source.buffer src')) as Hsame.
  { unfold fullHashOf. rewrite Hbytes, Hf, Hsalt, Hdigest. reflexivity. }
  split; [|split].
  - rewrite Hfull, Hfull', Hsame. split; [eexists|]; reflexivity.
  - intros Htemplate Hcompilation Hruntime Hgraph Hmodules.
    assert (resolved this module ctx src = resolved this' module' ctx' src')
      as Hresolved.
    { unfold resolved, pathDataOf, hashedModule.
      fold options. fold options'.
      rewrite Htemplate, Hcompilation, Hruntime, Hgraph, Hsame, Hlen.
      destruct Hmodules as [Hm|[Hcontract Hm]].
      - rewrite (sameButHash_hashed module module' _ Hm).
        rewrite (relativePathOf_same this this' module module' Hcompilation)
          by apply Hm.
        reflexivity.
      - rewrite (relativePathOf_same this this' module module' Hcompilation)
          by apply Hm.
        apply Hcontract. unfold sameButResults in *. cbn. exact Hm. }
    split.
    + rewrite (generate_resource_returns this module ctx src Ht Hd Hs).
      rewrite (generate_resource_returns this' module' ctx' src' Ht' Hd' Hs').
      rewrite Hresolved. reflexivity.
    + intros Hreturns.
      apply (generate_resource_returns this module ctx src Ht Hd Hs) in Hreturns.
      destruct Hreturns as [[path info] Hr].
      destruct (generate_resource_recorded this module ctx src path info
                  Ht Hd Hs Hr) as (Hname & Hinfo & _).
      rewrite Hresolved in Hr.
      destruct (generate_resource_recorded this' module' ctx' src' path info
                  Ht' Hd' Hs' Hr) as (Hname' & Hinfo' & _).
      fold after in Hname, Hinfo. fold after' in Hname', Hinfo'.
      rewrite Hname, Hname', Hinfo, Hinfo'.
      split; [eexists; reflexivity|]. split; reflexivity.
  - intros Hcontract Hreturns. cbv zeta.
    apply (generate_resource_returns this module ctx src Ht Hd Hs) in Hreturns.
    destruct Hreturns as [[path info] Hr].
    destruct (generate_resource_recorded this module ctx src path info
                Ht Hd Hs Hr) as (Hname & Hinfo & _).
    fold after in Hname, Hinfo.
    destruct (generate_frame this module ctx) as (Hs1 & Hm1 & Hr1 & Hd1).
    rewrite Hs in Hs1. rewrite Hd in Hd1.
    assert (resolved this (module_after this module ctx) ctx src =
            resolved this module ctx src) as Hresolved.
    { unfold resolved, pathDataOf, hashedModule.
      rewrite (relativePathOf_same this this (module_after this module ctx) module
                 eq_refl Hm1 Hr1).
      apply Hcontract.
      unfold sameButResults. cbn. repeat split; congruence. }
    rewrite Hr in Hresolved.
    destruct (generate_resource_recorded this (module_after this module ctx) ctx
                src path info Ht Hd1 Hs1 Hresolved) as (Hname2 & Hinfo2 & _).
    rewrite (generate_resource_fullContentHash this
               (module_after this module ctx) ctx src Ht Hd1 Hs1).
    rewrite Hname2, Hinfo2, Hname, Hinfo, Hfull. repeat split.
Qed.

(** ** Further properties *)

Set Warnings "-clear-no-such-hyp".

(** *** The built-ins *)

(** What [encodeURI] writes is ASCII. *)
Lemma encodeOctet_ascii (c : ascii) (k : string) :
  Utf8.all_ascii k = true -> Utf8.all_ascii (URI.encodeOctet c k) = true.
Proof.
  intros Hk.
  destruct c as [b0 b1 b2 b3 b4 b5 b6 b7].
  destruct b0, b1, b2, b3, b4, b5, b6, b7;
    vm_compute URI.encodeOctet; cbn [Utf8.all_ascii];
    repeat match goal with
      | |- context [Utf8.is_ascii ?a] =>
          let v := eval vm_compute in (Utf8.is_ascii a) in
          change (Utf8.is_ascii a) with v; cbn [andb]
      end;
    exact Hk.
Qed.

Lemma escape_ascii (s : string) : Utf8.all_ascii (URI.escape s) = true.
Proof.
  induction s as [|c r IH]; [reflexivity|].
  cbn [URI.escape]. apply encodeOctet_ascii, IH.
Qed.

(** The characters [encodeURI] writes: the unescaped ones, and the
    percent sign with hexadecimal digits (which are unescaped too). *)
Fixpoint all_uri (s : string) : bool :=
  match s with
  | EmptyString => true
  | String c r =>
      (URI.mem c URI.unescapedSet || Ascii.eqb c URI.percent) && all_uri r
  end.

Lemma encodeOctet_uri (c : ascii) (k : string) :
  all_uri k = true -> all_uri (URI.encodeOctet c k) = true.
Proof.
  intros Hk.
  destruct c as [b0 b1 b2 b3 b4 b5 b6 b7].
  destruct b0, b1, b2, b3, b4, b5, b6, b7;
    vm_compute URI.encodeOctet; cbn [all_uri];
    repeat match goal with
      | |- context [(URI.mem ?a URI.unescapedSet || Ascii.eqb ?a URI.percent)%bool] =>
          let v := eval vm_compute in
            (URI.mem a URI.unescapedSet || Ascii.eqb a URI.percent)%bool in
          change (URI.mem a URI.unescapedSet || Ascii.eqb a URI.percent)%bool with v;
          cbn [andb]
      end;
    exact Hk.
Qed.

Lemma escape_uri (s : string) : all_uri (URI.escape s) = true.
Proof.
  induction s as [|c r IH]; [reflexivity|].
  cbn [URI.escape]. apply encodeOctet_uri, IH.
Qed.

(** The unescaped characters are ASCII, so text made of them holds no
    surrogate. *)
Lemma unescaped_is_ascii (c : ascii) :
  URI.mem c URI.unescapedSet = true -> Utf8.is_ascii c = true.
Proof.
  destruct c as [b0 b1 b2 b3 b4 b5 b6 b7].
  destruct b0, b1, b2, b3, b4, b5, b6, b7; vm_compute; congruence.
Qed.

Lemma unescaped_no_surrogate (s : string) :
  (forall c, URI.mem c s = true -> URI.mem c URI.unescapedSet = true) ->
  Utf8.lone_surrogate s = false.
Proof.
  intros Hsafe. apply Utf8.ascii_no_surrogate.
  induction s as [|c r IH]; [reflexivity|].
  cbn [Utf8.all_ascii]. apply andb_true_iff. split.
  - apply unescaped_is_ascii, Hsafe. cbn [URI.mem].
    rewrite Ascii.eqb_refl. reflexivity.
  - apply IH. intros d Hd. apply Hsafe. cbn [URI.mem].
    rewrite Hd. apply orb_true_r.
Qed.

(** The characters base64 writes. *)
Fixpoint all_base64 (s : string) : bool :=
  match s with
  | EmptyString => true
  | String c r =>
      (URI.mem c Base64.alphabet || Ascii.eqb c Base64.pad) && all_base64 r
  end.

Lemma get_beyond (s : string) (k : nat) :
  (String.length s <= k)%nat -> String.get k s = None.
Proof.
  revert k. induction s as [|c r IH]; intros k Hk; [destruct k; reflexivity|].
  destruct k as [|k]; cbn in Hk |- *; [lia|]. apply IH. lia.
Qed.

Lemma digit_base64 (n : N) :
  (URI.mem (Base64.digit n) Base64.alphabet || Ascii.eqb (Base64.digit n) Base64.pad)
  = true.
Proof.
  destruct (N.ltb n 64) eqn:Hn.
  - apply N.ltb_lt in Hn.
    assert (exists k, (k < 64)%nat /\ n = N.of_nat k) as (k & Hk & ->)
      by (exists (N.to_nat n); lia).
    do 64 (destruct k as [|k]; [reflexivity|]). lia.
  - apply N.ltb_ge in Hn. unfold Base64.digit.
    rewrite get_beyond by (cbn; lia). reflexivity.
Qed.

Lemma encode_all_base64 (bs : list byte) : all_base64 (Base64.encode bs) = true.
Proof.
  induction bs as [|a|a b|a b c rest IH] using Base64.list_ind3;
    cbn [Base64.encode all_base64]; cbv zeta;
    rewrite ?digit_base64, ?IH; reflexivity.
Qed.

(** Four characters for every three octets or part of three. *)
Lemma encode_base64_length (bs : list byte) :
  String.length (Base64.encode bs) = (4 * ((length bs + 2) / 3))%nat.
Proof.
  induction bs as [|a|a b|a b c rest IH] using Base64.list_ind3;
    try reflexivity.
  cbn [Base64.encode]. cbv zeta. cbn [String.length length].
  rewrite IH.
  replace (S (S (S (length rest))) + 2)%nat with (length rest + 2 + 1 * 3)%nat by lia.
  rewrite Nat.div_add by lia. lia.
Qed.

(** *** What a call never touches *)

(** X1 — Whatever the generators, kinds and contexts of a sequence of
    [generate] calls on one module, the calls change neither the
    module's original source, nor its resource and match resource, nor
    its data-url flag: only the three result fields of the build info
    are ever written. *)
Theorem generate_all_keeps_module calls module :
  let after := generate_all calls module in
  NormalModule.originalSource after = NormalModule.originalSource module /\
  NormalModule.matchResource after = NormalModule.matchResource module /\
  NormalModule.resource after = NormalModule.resource module /\
  BuildInfo.dataUrl (NormalModule.buildInfo after) =
    BuildInfo.dataUrl (NormalModule.buildInfo module).
Proof.
  cbv zeta. revert module.
  induction calls as [|[this ctx] rest IH]; intros module; cbn [generate_all].
  - auto.
  - destruct (IH (module_after this module ctx)) as (Hs & Hm & Hr & Hd).
    destruct (generate_frame this module ctx) as (Hs' & Hm' & Hr' & Hd').
    rewrite Hs, Hm, Hr, Hd. auto.
Qed.





(** *** Runtime requirements and the concatenation scope *)

(** X3 — The runtime requirements only grow.  A call that returns
    leaves exactly: nothing new for the asset kind; otherwise the
    public path when the module is not data-url, and the module object
    when no concatenation scope is given.  With a scope, a data-url
    module adds no requirement at all. *)
Theorem generate_runtimeRequirements this module ctx :
  let after := the_runtimeRequirements (snd (generate this module ctx)) in
  runtimeRequirements ctx ⊆ after /\
  (forall out, fst (generate this module ctx) = Return out ->
     after =
       if String.eqb (type ctx) "asset" then runtimeRequirements ctx
       else
         (match concatenationScope ctx with
          | Some _ => ∅
          | None => {[ RuntimeGlobals_module ]}
          end) ∪
         (if BuildInfo.dataUrl (NormalModule.buildInfo module)
          then ∅ else {[ RuntimeGlobals_publicPath ]}) ∪
         runtimeRequirements ctx).
Proof.
  cbv zeta. split.
  - run_generate.
    repeat (case_inner; try (cbn; set_solver)).
  - intros out. run_generate.
    repeat (case_inner; try discriminate; try (intros _; cbn; set_solver)).
Qed.

(** X4 — A call that returns for a kind other than "asset" registers
    the namespace export on the concatenation scope it was given, once,
    under [NAMESPACE_OBJECT_EXPORT]; the asset kind and a call that
    throws leave the scope alone, and no call makes a scope where none
    was given. *)
Theorem generate_concatenationScope this module ctx :
  let after := the_concatenationScope (snd (generate this module ctx)) in
  (concatenationScope ctx = None -> after = None) /\
  (type ctx = "asset" -> after = concatenationScope ctx) /\
  (forall e, fst (generate this module ctx) = Throw e ->
     after = concatenationScope ctx) /\
  (forall out, type ctx <> "asset" ->
     fst (generate this module ctx) = Return out ->
     after =
       option_map (fun scope => registerNamespaceExport scope NAMESPACE_OBJECT_EXPORT)
         (concatenationScope ctx)).
Proof.
  cbv zeta. repeat split.
  - intros Hnone. run_generate.
    repeat (case_inner; try congruence; try (cbn; congruence)).
  - intros Ht. rewrite generate_asset by assumption. reflexivity.
  - intros e He. apply (generate_throw_keeps_scope _ _ _ _ He).
  - intros out Ht%String.eqb_neq. run_generate.
    repeat (case_inner; try congruence; try discriminate;
            try (intros _; cbn; congruence)).
Qed.

(** *** The data-url mode *)

(** X5 — With a custom encoder function the generator binds what the
    function returns as it is.  The function receives the content as
    the source stores it, the match resource (else the resource) and
    the module; neither the mimetype lookup nor the encoding switch
    runs, so no [Error] is thrown whatever the extension; nothing is
    written to the module.  A null original source is a TypeError. *)
Theorem generate_dataUrl_function this module ctx f :
  type ctx <> "asset" ->
  BuildInfo.dataUrl (NormalModule.buildInfo module) = true ->
  dataUrlOptions this = Some (DataUrlFunction f) ->
  fst (generate this module ctx) =
    match NormalModule.originalSource module with
    | Some src =>
        Return (Some (RawSource (Text (emitted ctx (JSON_stringify
          (f (Source.source src)
             (Js.or_else (NormalModule.matchResource module)
                         (NormalModule.resource module))
             module))))))
    | None => Throw TypeError
    end /\
  module_after this module ctx = module.
Proof.
  intros Ht%String.eqb_neq Hd Ho. split.
  - run_generate. rewrite Ht. reduce. rewrite Hd, Ho. reduce.
    unfold emitted.
    destruct (NormalModule.originalSource module); reduce; [|reflexivity].
    destruct (concatenationScope ctx); reflexivity.
  - apply generate_dataUrl_keeps_module. exact Hd.
Qed.

(** X6 — A generator built without data-url options that meets a
    data-url module throws a TypeError (it reads [encoding] of
    undefined) for every kind but "asset", before anything is
    written, required or registered. *)
Theorem generate_dataUrl_without_options this module ctx :
  type ctx <> "asset" ->
  BuildInfo.dataUrl (NormalModule.buildInfo module) = true ->
  dataUrlOptions this = None ->
  generate this module ctx = (Throw TypeError, initial module ctx).
Proof.
  intros Ht%String.eqb_neq Hd Ho.
  run_generate. rewrite Ht. reduce. rewrite Hd, Ho. reflexivity.
Qed.

(** The same generator with other data-url options. *)
Definition with_dataUrlOptions (options : option DataUrlOptions)
    (this : AssetGenerator) : AssetGenerator :=
  {| compilation := compilation this;
     dataUrlOptions := options;
     filename := filename this |}.

(** X7 — A non-empty mimetype override decides the mimetype of the data
    URL, under either encoding: the lookup by extension is not
    consulted and the missing mimetype error cannot occur.  An empty
    override counts as none: the call behaves as without an
    override. *)
Theorem generate_mimetype_override this module ctx encoding mimetype :
  dataUrlOptions this = Some (DataUrlObject encoding (Some mimetype)) ->
  (mimetype <> "" ->
   type ctx <> "asset" ->
   BuildInfo.dataUrl (NormalModule.buildInfo module) = true ->
   forall src, NormalModule.originalSource module = Some src ->
   (encoding = Js.Str "base64" ->
    fst (generate this module ctx) =
      Return (Some (RawSource (Text (emitted ctx (JSON_stringify
        ("data:" ++ mimetype ++ ";base64," ++
         Base64.encode (Source.buffer src)))))))) /\
   (encoding = Js.Boolean false ->
    forall payload, URI.encodeURI (textOf src) = Some payload ->
    fst (generate this module ctx) =
      Return (Some (RawSource (Text (emitted ctx (JSON_stringify
        ("data:" ++ mimetype ++ "," ++ payload))))))) /\
   (forall message,
      fst (generate this module ctx) = Throw (Error message) ->
      message = "Unsupported encoding '" ++ Js.toString encoding ++ "'")) /\
  (mimetype = "" ->
   generate this module ctx =
   generate (with_dataUrlOptions (Some (DataUrlObject encoding None)) this)
     module ctx).
Proof.
  intros Ho. split.
  - intros Hne Ht Hd src Hs.
    assert (resolvedMimetype (Some mimetype)
              (path_extname (nameForCondition module)) = Some mimetype) as Hm.
    { unfold resolvedMimetype, Js.or_lookup, Js.truthy_string.
      apply String.eqb_neq in Hne. rewrite Hne. cbn.
      unfold Js.truthy_string. rewrite Hne. reflexivity. }
    split; [|split].
    + intros ->. eapply generate_dataUrl_base64; eassumption.
    + intros -> payload Hpayload.
      erewrite generate_dataUrl_false by eassumption.
      rewrite Hpayload. reflexivity.
    + intros message Hthrow.
      destruct (supportedEncoding_dec encoding) as [He|He].
      * exfalso. destruct He as [-> | ->].
        -- erewrite generate_dataUrl_base64 in Hthrow by eassumption.
           discriminate.
        -- erewrite generate_dataUrl_false in Hthrow by eassumption.
           destruct (URI.encodeURI (textOf src)); discriminate.
      * erewrite generate_unsupported_encoding in Hthrow by eassumption.
        injection Hthrow as <-. reflexivity.
  - intros ->. unfold with_dataUrlOptions. run_generate.
    cbn [dataUrlOptions compilation filename]. rewrite Ho.
    reflexivity.
Qed.

(** X8 — With encoding [false] the text handed to [encodeURI] is the
    stored string or the UTF-8 decoding of the stored buffer, in which
    ill-formed bytes have become U+FFFD.  When the text holds no
    unpaired surrogate the payload is ASCII and percent-decoding it
    gives the octets of the text back; when it holds one the call ends
    in a URIError.  The decoding of a buffer never holds one. *)
Theorem generate_dataUrl_false_payload this module ctx mimetype mimeType src :
  type ctx <> "asset" ->
  BuildInfo.dataUrl (NormalModule.buildInfo module) = true ->
  dataUrlOptions this = Some (DataUrlObject (Js.Boolean false) mimetype) ->
  resolvedMimetype mimetype (path_extname (nameForCondition module)) = Some mimeType ->
  NormalModule.originalSource module = Some src ->
  let text :=
    match Source.source src with
    | Text content => content
    | Bytes content => Utf8.decode content
    end in
  (Utf8.lone_surrogate text = false ->
   exists payload,
     fst (generate this module ctx) =
       Return (Some (RawSource (Text (emitted ctx (JSON_stringify
         ("data:" ++ mimeType ++ "," ++ payload)))))) /\
     Utf8.all_ascii payload = true /\
     URI.percentDecode payload = Some text) /\
  (Utf8.lone_surrogate text = true ->
   fst (generate this module ctx) = Throw URIError) /\
  (forall content,
     Source.source src = Bytes content -> Utf8.lone_surrogate text = false).
Proof.
  intros Ht Hd Ho Hm Hs. cbv zeta. fold (textOf src). split; [|split].
  - intros Htext. eexists. split; [|split].
    + eapply generate_dataUrl_false_returns; eassumption.
    + apply escape_ascii.
    + apply URI.percentDecode_escape.
  - intros Htext. eapply generate_dataUrl_false_throws; eassumption.
  - intros content Hcontent. unfold textOf. rewrite Hcontent.
    apply Utf8.decode_no_surrogate.
Qed.

(** X18 — With encoding [false] every character of a payload is one
    that [encodeURI] leaves unescaped or a percent sign, and a text made
    of unescaped characters only is its own payload: URL-safe text goes
    into the data URL as it is.  The payload exists when the text holds
    no unpaired surrogate, as URL-safe text does not. *)
Theorem generate_dataUrl_false_verbatim this module ctx mimetype mimeType src :
  type ctx <> "asset" ->
  BuildInfo.dataUrl (NormalModule.buildInfo module) = true ->
  dataUrlOptions this = Some (DataUrlObject (Js.Boolean false) mimetype) ->
  resolvedMimetype mimetype (path_extname (nameForCondition module)) = Some mimeType ->
  NormalModule.originalSource module = Some src ->
  let text :=
    match Source.source src with
    | Text content => content
    | Bytes content => Utf8.decode content
    end in
  (Utf8.lone_surrogate text = false ->
   exists payload,
     fst (generate this module ctx) =
       Return (Some (RawSource (Text (emitted ctx (JSON_stringify
         ("data:" ++ mimeType ++ "," ++ payload)))))) /\
     all_uri payload = true /\
     (forall content,
        Source.source src = Text content ->
        (forall c, URI.mem c content = true -> URI.mem c URI.unescapedSet = true) ->
        payload = content)) /\
  (forall content,
     Source.source src = Text content ->
     (forall c, URI.mem c content = true -> URI.mem c URI.unescapedSet = true) ->
     Utf8.lone_surrogate text = false).
Proof.
  intros Ht Hd Ho Hm Hs. cbv zeta. fold (textOf src). split.
  - intros Htext. eexists. split; [|split].
    + eapply generate_dataUrl_false_returns; eassumption.
    + apply escape_uri.
    + intros content Hcontent Hsafe. unfold textOf. rewrite Hcontent.
      apply URI.escape_unescaped. exact Hsafe.
  - intros content Hcontent Hsafe. unfold textOf. rewrite Hcontent.
    apply unescaped_no_surrogate. exact Hsafe.
Qed.

(** X9 — With encoding "base64" the payload has four characters for
    every three bytes of the content or part of three, all of them
    from the base64 alphabet or the padding sign. *)
Theorem generate_dataUrl_base64_payload this module ctx mimetype mimeType src :
  type ctx <> "asset" ->
  BuildInfo.dataUrl (NormalModule.buildInfo module) = true ->
  dataUrlOptions this = Some (DataUrlObject (Js.Str "base64") mimetype) ->
  resolvedMimetype mimetype (path_extname (nameForCondition module)) = Some mimeType ->
  NormalModule.originalSource module = Some src ->
  exists payload,
    fst (generate this module ctx) =
      Return (Some (RawSource (Text (emitted ctx (JSON_stringify
        ("data:" ++ mimeType ++ ";base64," ++ payload)))))) /\
    Z.of_nat (String.length payload) = (4 * ((Source.size src + 2) / 3))%Z /\
    all_base64 payload = true.
Proof.
  intros Ht Hd Ho Hm Hs.
  eexists. split; [|split].
  - eapply generate_dataUrl_base64; eassumption.
  - rewrite encode_base64_length. unfold Source.size.
    rewrite Nat2Z.inj_mul, Nat2Z.inj_div, Nat2Z.inj_add. reflexivity.
  - apply encode_all_base64.
Qed.

(** *** The resource mode *)

(** X10 — In the resource mode the generated code refers to the very
    filename the call records in the build info: when the path
    resolution returns, the code is the public path plus the JSON
    literal of [buildInfo.filename], and the asset info recorded beside
    it comes from the same path resolution.  The call returns exactly
    when the path resolution does, and throws what it throws. *)
Theorem generate_resource_reference this module ctx src :
  type ctx <> "asset" ->
  BuildInfo.dataUrl (NormalModule.buildInfo module) = false ->
  NormalModule.originalSource module = Some src ->
  exists data : PathData.t RuntimeSpec ChunkGraph,
    let after := NormalModule.buildInfo (module_after this module ctx) in
    let resolution :=
      getAssetPathWithInfo (compilation this) (templateOf this ctx) data in
    ((exists out, fst (generate this module ctx) = Return out) <->
     (exists r, resolution = Return r)) /\
    (forall filename info,
       resolution = Return (filename, info) ->
       BuildInfo.filename after = Some filename /\
       fst (generate this module ctx) =
         Return (Some (RawSource (Text (emitted ctx
           (RuntimeGlobals_publicPath ++ " + " ++ JSON_stringify filename))))) /\
       BuildInfo.assetInfo after = Some info) /\
    (forall e, resolution = Throw e -> fst (generate this module ctx) = Throw e).
Proof.
  intros Ht Hd Hs. exists (pathDataOf this module ctx src). cbv zeta.
  fold (resolved this module ctx src). split; [|split].
  - apply generate_resource_returns; assumption.
  - intros filename info Hr.
    destruct (generate_resource_recorded this module ctx src filename info
                Ht Hd Hs Hr) as (Hname & Hinfo & Hout).
    auto.
  - intros e Hr.
    rewrite (generate_resource this module ctx src Ht Hd Hs), Hr. reflexivity.
Qed.

(** X11 — What the path templating is handed in the resource mode: the
    module with the full content hash already recorded (and its
    filename and asset info still as before the call), the relative
    path, the runtime and the chunk graph of the call, and as content
    hash the first [hashDigestLength] UTF-16 code units of the full
    hash, or the whole hash when it is shorter; a negative length cuts
    that many code units off the end instead.  For a hash of ASCII
    characters, as the hexadecimal and base64 digests are, that is the
    prefix of so many characters. *)
Theorem generate_resource_pathData this module ctx src :
  type ctx <> "asset" ->
  BuildInfo.dataUrl (NormalModule.buildInfo module) = false ->
  NormalModule.originalSource module = Some src ->
  exists (data : PathData.t RuntimeSpec ChunkGraph) (fullHash : string),
    let after := NormalModule.buildInfo (module_after this module ctx) in
    let handed := NormalModule.buildInfo (PathData.module data) in
    let digits :=
      OutputOptions.hashDigestLength
        (RuntimeTemplate.outputOptions (runtimeTemplate ctx)) in
    let kept (len : Z) : nat :=
      Z.to_nat (if (digits <? 0)%Z then Z.max (len + digits) 0 else Z.min digits len) in
    fst (generate this module ctx) =
      match getAssetPathWithInfo (compilation this) (templateOf this ctx) data with
      | Return (filename, _) =>
          Return (Some (RawSource (Text (emitted ctx
            (RuntimeGlobals_publicPath ++ " + " ++ JSON_stringify filename)))))
      | Throw e => Throw e
      end /\
    BuildInfo.fullContentHash after = Some fullHash /\
    BuildInfo.fullContentHash handed = Some fullHash /\
    BuildInfo.filename handed = BuildInfo.filename (NormalModule.buildInfo module) /\
    BuildInfo.assetInfo handed = BuildInfo.assetInfo (NormalModule.buildInfo module) /\
    Utf16.units (PathData.contentHash data) =
      firstn (kept (Z.of_nat (Utf16.length fullHash))) (Utf16.units fullHash) /\
    (Utf8.all_ascii fullHash = true ->
     PathData.contentHash data =
       String.substring 0 (kept (Z.of_nat (String.length fullHash))) fullHash) /\
    PathData.filename data = relativePathOf this module /\
    PathData.runtime data = runtime ctx /\
    PathData.chunkGraph data = chunkGraph ctx.
Proof.
  intros Ht Hd Hs.
  exists (pathDataOf this module ctx src).
  exists (fullHashOf (RuntimeTemplate.outputOptions (runtimeTemplate ctx))
            (Source.buffer src)).
  cbv zeta. fold (resolved this module ctx src).
  split; [|split; [|split; [|split; [|split; [|split; [|split]]]]]].
  - rewrite (generate_resource this module ctx src Ht Hd Hs).
    destruct (resolved this module ctx src) as [[path info]|e]; reflexivity.
  - apply generate_resource_fullContentHash; assumption.
  - reflexivity.
  - reflexivity.
  - reflexivity.
  - unfold pathDataOf. cbn [PathData.contentHash].
    unfold Js.slice0. apply Utf16.units_slice0.
  - intros Hascii. unfold pathDataOf. cbn [PathData.contentHash].
    unfold Js.slice0. apply Utf16.slice0_ascii. exact Hascii.
  - repeat split.
Qed.

(** The same context with other settings. *)
Definition with_outputOptions (f : OutputOptions.t -> OutputOptions.t)
    (ctx : GenerateContext) : GenerateContext :=
  {| runtime := runtime ctx;
     chunkGraph := chunkGraph ctx;
     runtimeTemplate :=
       RuntimeTemplate.mk (f (RuntimeTemplate.outputOptions (runtimeTemplate ctx)));
     runtimeRequirements := runtimeRequirements ctx;
     type := type ctx;
     concatenationScope := concatenationScope ctx |}.

Definition with_type (t : string) (ctx : GenerateContext) : GenerateContext :=
  {| runtime := runtime ctx;
     chunkGraph := chunkGraph ctx;
     runtimeTemplate := runtimeTemplate ctx;
     runtimeRequirements := runtimeRequirements ctx;
     type := t;
     concatenationScope := concatenationScope ctx |}.

Definition set_hashSalt (salt : option string) (o : OutputOptions.t) : OutputOptions.t :=
  OutputOptions.mk (OutputOptions.assetModuleFilename o) (OutputOptions.hashFunction o)
    salt (OutputOptions.hashDigest o) (OutputOptions.hashDigestLength o).

Definition set_assetModuleFilename (template : string) (o : OutputOptions.t)
  : OutputOptions.t :=
  OutputOptions.mk template (OutputOptions.hashFunction o)
    (OutputOptions.hashSalt o) (OutputOptions.hashDigest o)
    (OutputOptions.hashDigestLength o).

Definition with_filename (template : option string) (this : AssetGenerator)
  : AssetGenerator :=
  {| compilation := compilation this;
     dataUrlOptions := dataUrlOptions this;
     filename := template |}.

(** X12 — The salt: an empty [hashSalt] is not fed to the hash, so the
    call leaves the module (full content hash, filename, asset info) as
    the call without a salt does; a non-empty salt is fed before the
    content, and the full content hash is the digest of the salt
    followed by the bytes. *)
Theorem generate_hashSalt this module ctx :
  module_after this module (with_outputOptions (set_hashSalt (Some "")) ctx) =
  module_after this module (with_outputOptions (set_hashSalt None) ctx) /\
  (forall salt src,
     salt <> "" ->
     type ctx <> "asset" ->
     BuildInfo.dataUrl (NormalModule.buildInfo module) = false ->
     NormalModule.originalSource module = Some src ->
     let options := RuntimeTemplate.outputOptions (runtimeTemplate ctx) in
     BuildInfo.fullContentHash
       (NormalModule.buildInfo
          (module_after this module
             (with_outputOptions (set_hashSalt (Some salt)) ctx))) =
     Some (Hash_digest
             (Hash_update
                (Hash_update (createHash (OutputOptions.hashFunction options))
                   (Text salt))
                (Bytes (Source.buffer src)))
             (OutputOptions.hashDigest options))).
Proof.
  split.
  - unfold module_after. run_generate.
    cbn [with_outputOptions set_hashSalt runtimeTemplate type runtime chunkGraph
         concatenationScope runtimeRequirements
         RuntimeTemplate.outputOptions OutputOptions.hashSalt
         OutputOptions.hashFunction OutputOptions.hashDigest
         OutputOptions.hashDigestLength OutputOptions.assetModuleFilename].
    change (Js.truthy_string "") with false. cbv iota.
    repeat (case_inner; try reflexivity).
  - intros salt src Hsalt Ht Hd Hs options.
    rewrite (generate_resource_fullContentHash this module
               (with_outputOptions (set_hashSalt (Some salt)) ctx) src Ht Hd Hs).
    unfold fullHashOf.
    cbn [with_outputOptions set_hashSalt runtimeTemplate
         RuntimeTemplate.outputOptions OutputOptions.hashSalt
         OutputOptions.hashFunction OutputOptions.hashDigest].
    unfold Js.truthy_string. apply String.eqb_neq in Hsalt. rewrite Hsalt.
    reflexivity.
Qed.

(** X13 — The filename template: a non-empty [filename] of the
    generator is the template of the call and overrides
    [output.assetModuleFilename], which then has no influence on what
    the call records in the module; an empty one counts as none. *)
Theorem generate_filename_override this module ctx :
  (filename this = Some "" ->
   generate this module ctx = generate (with_filename None this) module ctx) /\
  (forall template configured,
     filename this = Some template -> template <> "" ->
     module_after this module
       (with_outputOptions (set_assetModuleFilename configured) ctx) =
     module_after this module ctx /\
     templateOf this ctx = template).
Proof.
  split.
  - intros Hf. unfold with_filename. run_generate.
    cbn [filename compilation dataUrlOptions]. rewrite Hf. reflexivity.
  - intros template configured Hf Hne%String.eqb_neq.
    split.
    + unfold module_after. run_generate.
      cbn [with_outputOptions set_assetModuleFilename runtimeTemplate type
           runtime chunkGraph concatenationScope runtimeRequirements
           RuntimeTemplate.outputOptions OutputOptions.hashSalt
           OutputOptions.hashFunction OutputOptions.hashDigest
           OutputOptions.hashDigestLength OutputOptions.assetModuleFilename].
      rewrite Hf.
      assert (forall other, Js.or_else (Some template) other = template) as Hor
        by (intros other; unfold Js.or_else, Js.truthy_string;
            rewrite Hne; reflexivity).
      rewrite !Hor.
      repeat (case_inner; try reflexivity).
    + unfold templateOf, Js.or_else, Js.truthy_string.
      rewrite Hf, Hne. reflexivity.
Qed.

(** *** Sizes, kinds and concatenation *)


(** X15 — Every kind other than "asset" is the default kind: neither
    [generate] nor [getSize] tells "javascript" from an unknown kind or
    rejects one. *)
Theorem generate_default_kind this module ctx (kind : string) :
  kind <> "asset" ->
  generate this module (with_type kind ctx) =
    generate this module (with_type "javascript" ctx) /\
  getSize module (Some kind) = getSize module None.
Proof.
  intros Hk. split.
  - apply String.eqb_neq in Hk. run_generate.
    cbn [with_type type runtimeTemplate runtime chunkGraph concatenationScope
         runtimeRequirements].
    rewrite Hk. reflexivity.
  - unfold getSize. apply String.eqb_neq in Hk. rewrite Hk. reflexivity.
Qed.

(** X16 — A module may be concatenated (no bailout reason) exactly when
    it is data-url, which is exactly when its types leave out "asset";
    [generate] then writes nothing to it and requires no public path.
    Otherwise the reason is the fixed sentence, and a call for a code
    kind that returns has recorded the emitted file in the build
    info. *)
Theorem getConcatenationBailoutReason_emits module :
  (getConcatenationBailoutReason module = None <->
   BuildInfo.dataUrl (NormalModule.buildInfo module) = true) /\
  (getConcatenationBailoutReason module = None <-> "asset" ∉ getTypes module) /\
  (forall this ctx,
     getConcatenationBailoutReason module = None ->
     module_after this module ctx = module /\
     the_runtimeRequirements (snd (generate this module ctx)) ⊆
       {[ RuntimeGlobals_module ]} ∪ runtimeRequirements ctx) /\
  (forall reason this ctx out,
     getConcatenationBailoutReason module = Some reason ->
     reason = "Asset module emits an asset" /\
     (type ctx <> "asset" ->
      fst (generate this module ctx) = Return out ->
      BuildInfo.written (NormalModule.buildInfo (module_after this module ctx)))).
Proof.
  unfold getConcatenationBailoutReason, getTypes, JS_TYPES, JS_AND_ASSET_TYPES.
  destruct (BuildInfo.dataUrl (NormalModule.buildInfo module)) eqn:Hd;
    cbn [negb]; (split; [|split; [|split]]).
  - split; reflexivity.
  - split; [set_solver|reflexivity].
  - intros this ctx _. split.
    + apply generate_dataUrl_keeps_module. exact Hd.
    + run_generate.
      repeat (case_inner; try congruence; try (cbn; set_solver)).
  - discriminate.
  - split; discriminate.
  - split; [discriminate|set_solver].
  - discriminate.
  - intros reason this ctx out [= <-]. split; [reflexivity|].
    intros Ht Hout. eapply generate_resource_writes; eassumption.
Qed.

(** *** Every way a call can throw *)

(** The custom encoder decides the data URL. *)
Lemma generate_function this module ctx f :
  type ctx <> "asset" ->
  BuildInfo.dataUrl (NormalModule.buildInfo module) = true ->
  dataUrlOptions this = Some (DataUrlFunction f) ->
  fst (generate this module ctx) =
    match NormalModule.originalSource module with
    | Some src =>
        Return (Some (RawSource (Text (emitted ctx (JSON_stringify
          (f (Source.source src)
             (Js.or_else (NormalModule.matchResource module)
                         (NormalModule.resource module))
             module))))))
    | None => Throw TypeError
    end.
Proof.
  intros Ht%String.eqb_neq Hd Ho.
  run_generate. rewrite Ht. reduce. rewrite Hd, Ho. reduce.
  unfold emitted.
  destruct (NormalModule.originalSource module); reduce; [|reflexivity].
  destruct (concatenationScope ctx); reflexivity.
Qed.

(** Reading [encoding] of undefined. *)
Lemma generate_without_options this module ctx :
  type ctx <> "asset" ->
  BuildInfo.dataUrl (NormalModule.buildInfo module) = true ->
  dataUrlOptions this = None ->
  generate this module ctx = (Throw TypeError, initial module ctx).
Proof.
  intros Ht%String.eqb_neq Hd Ho.
  run_generate. rewrite Ht. reduce. rewrite Hd, Ho. reflexivity.
Qed.

(** X17 — The exceptions of [generate], the collaborators other than
    the path resolution taken as returning.  The asset kind never
    throws.  A TypeError comes from a null original source or, for a
    data-url module, from missing data-url options; the declarative
    data-url variant throws an [Error] for a missing mimetype or an
    unsupported encoding and the URIError of [encodeURI] for a stored
    string with an unpaired surrogate; all of these leave the module as
    it was.  The resource mode throws what the path resolution throws,
    and the module then holds the full content hash of the call beside
    its old filename and asset info.  No call that throws has added a
    runtime requirement or touched the scope. *)
Theorem generate_throws this module ctx e :
  fst (generate this module ctx) = Throw e ->
  type ctx <> "asset" /\
  the_runtimeRequirements (snd (generate this module ctx)) = runtimeRequirements ctx /\
  the_concatenationScope (snd (generate this module ctx)) = concatenationScope ctx /\
  ((e = TypeError /\
    module_after this module ctx = module /\
    (NormalModule.originalSource module = None \/
     (BuildInfo.dataUrl (NormalModule.buildInfo module) = true /\
      dataUrlOptions this = None))) \/
   (exists encoding mimetype,
      module_after this module ctx = module /\
      BuildInfo.dataUrl (NormalModule.buildInfo module) = true /\
      dataUrlOptions this = Some (DataUrlObject encoding mimetype) /\
      ((exists message,
          e = Error message /\
          (resolvedMimetype mimetype (path_extname (nameForCondition module)) = None \/
           ~ supportedEncoding encoding)) \/
       (e = URIError /\ encoding = Js.Boolean false /\
        exists content,
          NormalModule.originalSource module = Some (RawSource (Text content)) /\
          Utf8.lone_surrogate content = true))) \/
   (exists src,
      BuildInfo.dataUrl (NormalModule.buildInfo module) = false /\
      NormalModule.originalSource module = Some src /\
      resolved this module ctx src = Throw e /\
      module_after this module ctx =
        NormalModule.with_buildInfo
          (BuildInfo.set_fullContentHash
             (fullHashOf (RuntimeTemplate.outputOptions (runtimeTemplate ctx))
                (Source.buffer src)))
          module)).
Proof.
  intros Hthrow.
  destruct (generate_throw_keeps_scope _ _ _ _ Hthrow) as [Hreqs Hscope].
  assert (type ctx <> "asset") as Ht.
  { intros Ht. rewrite generate_asset in Hthrow by assumption. discriminate. }
  split; [exact Ht|]. split; [exact Hreqs|]. split; [exact Hscope|].
  destruct (BuildInfo.dataUrl (NormalModule.buildInfo module)) eqn:Hd.
  - pose proof (generate_dataUrl_keeps_module this module ctx Hd) as Hkeep.
    destruct (dataUrlOptions this) as [[f|encoding mimetype]|] eqn:Ho.
    + left. rewrite (generate_function this module ctx f Ht Hd Ho) in Hthrow.
      destruct (NormalModule.originalSource module); [discriminate|].
      injection Hthrow as <-. auto.
    + pose proof (generate_dataUrl_cases this module ctx encoding mimetype
                    Ht Hd Ho) as Hcases.
      cbv zeta in Hcases. rewrite <- resolvedMimetype_None in Hcases.
      destruct Hcases as [(Hn & H)|[(_ & He & H)|[(_ & _ & Hs & H)|
        [(_ & _ & Hmal & H)|(_ & _ & _ & _ & out & H)]]]];
        rewrite H in Hthrow; try discriminate; injection Hthrow as <-.
      * right. left. exists encoding, mimetype. eauto 8.
      * right. left. exists encoding, mimetype. eauto 8.
      * left. auto.
      * right. left. exists encoding, mimetype.
        destruct Hmal as [Hfalse Hcontent]. auto 8.
    + left. rewrite generate_without_options in Hthrow by assumption.
      injection Hthrow as <-. auto.
  - destruct (NormalModule.originalSource module) as [src|] eqn:Hs.
    + right. right. exists src.
      split; [reflexivity|]. split; [reflexivity|].
      revert Hthrow. unfold module_after.
      rewrite (generate_resource this module ctx src Ht Hd Hs).
      destruct (resolved this module ctx src) as [[path info]|e'];
        cbn [fst snd]; [discriminate|].
      intros [= ->]. split; reflexivity.
    + left. revert Hthrow. unfold module_after.
      rewrite generate_resource_null by assumption. cbn [fst snd].
      intros [= <-]. auto.
Qed.

End Properties.

(** ** The generator on the sample host *)

#[local] Existing Instance Sample.host.

(** The sample templating reads no module at all. *)
Lemma Sample_templating : templating_ignores_results (host := Sample.host).
Proof. intros c template m m' r path g contentHash _. reflexivity. Qed.

(** End-to-end runs. *)
Example generate_hello_text :
  fst (generate (Sample.declarative (Js.Boolean false)) Sample.hello
         (Sample.context "javascript" None)) =
  Return (Some (RawSource (Text
    ("module.exports = " ++ Js.dquote ++ "data:text/plain,hello" ++ Js.dquote ++ ";")))).
Proof. reflexivity. Qed.

Example generate_pixel_base64 :
  fst (generate (Sample.declarative (Js.Str "base64")) Sample.pixel
         (Sample.context "javascript" None)) =
  Return (Some (RawSource (Text
    ("module.exports = " ++ Js.dquote ++ "data:image/png;base64,iVBORw==" ++
     Js.dquote ++ ";")))).
Proof. reflexivity. Qed.

Example generate_logo_resource :
  generate (Sample.generator None) Sample.logo (Sample.context "javascript" None) =
  (Return (Some (RawSource (Text
     ("module.exports = __webpack_require__.p + " ++ Js.dquote ++
      "hex:bWQ0iVBORw==.png" ++ Js.dquote ++ ";")))),
   {| the_module :=
        NormalModule.mk (Some (RawSource (Bytes Sample.png)))
          (BuildInfo.mk false (Some "hex:bWQ0iVBORw==.png")
             (Some [("contenthash", "hex:bWQ0iVBORw==")])
             (Some "hex:bWQ0iVBORw=="))
          None "/app/src/logo.png";
      the_runtimeRequirements := {[ "module" ]} ∪ ({[ "__webpack_require__.p" ]} ∪ ∅);
      the_concatenationScope := None |}).
Proof. reflexivity. Qed.

Lemma generate_asset_verbatim_witness :
  let '(outcome, store) :=
    generate (Sample.generator None) Sample.logo (Sample.context "asset" None) in
  outcome = Return (Some (RawSource (Bytes Sample.png))) /\
  the_module store = Sample.logo /\
  the_runtimeRequirements store = ∅ /\
  the_concatenationScope store = None.
Proof.
  apply (generate_asset_verbatim (Sample.generator None) Sample.logo
           (Sample.context "asset" None)).
  reflexivity.
Defined.

Lemma generate_buildInfo_partial_counterexample :
  let this := Sample.templated "[fullhash][ext]" in
  let ctx := Sample.contextOf None in
  let after := NormalModule.buildInfo (module_after this Sample.logo ctx) in
  BuildInfo.dataUrl (NormalModule.buildInfo Sample.logo) = false /\
  BuildInfo.unset (NormalModule.buildInfo Sample.logo) /\
  fst (generate this Sample.logo ctx) =
    Throw (Error
      "Path variable [fullhash] not implemented in this context: [fullhash][ext]") /\
  after = BuildInfo.mk false None None (Some "hex:bWQ0iVBORw==") /\
  ~ (BuildInfo.unset after \/ BuildInfo.written after).
Proof.
  cbv zeta. split; [reflexivity|]. split; [repeat split|].
  split; [reflexivity|]. split; [reflexivity|].
  intros [(_ & _ & Hhash)|([name Hname] & _)]; discriminate.
Qed.

Lemma generate_buildInfo_all_or_none_witness :
  BuildInfo.unset (NormalModule.buildInfo Sample.logo) /\
  BuildInfo.written
    (NormalModule.buildInfo
       (module_after (Sample.generator None) Sample.logo
          (Sample.context "javascript" None))) /\
  NormalModule.buildInfo
    (module_after (Sample.declarative (Js.Str "base64")) Sample.pixel
       (Sample.context "javascript" None)) =
    NormalModule.buildInfo Sample.pixel /\
  (BuildInfo.unset
     (NormalModule.buildInfo
        (module_after (Sample.templated "[fullhash][ext]") Sample.logo
           (Sample.contextOf None))) \/
   hashOnly
     (NormalModule.buildInfo
        (module_after (Sample.templated "[fullhash][ext]") Sample.logo
           (Sample.contextOf None)))).
Proof.
  split; [repeat split|]. split; [|split].
  - destruct (generate_buildInfo_all_or_none (Sample.generator None) Sample.logo
                (Sample.context "javascript" None)) as (_ & _ & Hreturns & _).
    cbv zeta in Hreturns.
    apply Hreturns; [eexists; reflexivity|discriminate|reflexivity].
  - destruct (generate_buildInfo_all_or_none
                (Sample.declarative (Js.Str "base64")) Sample.pixel
                (Sample.context "javascript" None)) as [Hkeep _].
    cbv zeta in Hkeep. apply Hkeep. right. reflexivity.
  - destruct (generate_buildInfo_all_or_none
                (Sample.templated "[fullhash][ext]") Sample.logo
                (Sample.contextOf None)) as (_ & _ & _ & Hthrows).
    cbv zeta in Hthrows.
    apply (Hthrows
             (Error "Path variable [fullhash] not implemented in this context: [fullhash][ext]"));
      [reflexivity|repeat split].
Defined.

Lemma getTypes_code_counterexample :
  getTypes Sample.hello <> {[ "code" ]} /\
  getTypes Sample.logo <> {[ "code"; "asset" ]}.
Proof.
  split; intros H.
  - assert ("javascript" ∈ getTypes Sample.hello) as Hin
      by (unfold getTypes, JS_TYPES; cbn; set_solver).
    rewrite H in Hin. set_solver.
  - assert ("javascript" ∈ getTypes Sample.logo) as Hin
      by (unfold getTypes, JS_AND_ASSET_TYPES; cbn; set_solver).
    rewrite H in Hin. set_solver.
Qed.

Lemma getTypes_by_flag_witness :
  getTypes Sample.hello = getTypes Sample.pixel /\
  getTypes Sample.hello = {[ "javascript" ]} /\
  (getTypes Sample.hello = JS_TYPES \/ getTypes Sample.hello = JS_AND_ASSET_TYPES).
Proof.
  apply (getTypes_by_flag Sample.hello Sample.pixel). reflexivity.
Defined.

Lemma getSize_default_estimate_witness :
  getSize Sample.hello None = (5 * 1.34 + 36)%float /\
  getSize Sample.empty (Some "javascript") = 36%float /\
  getSize Sample.logo None = 42%float.
Proof.
  split; [|split].
  - destruct (getSize_default_estimate Sample.hello None) as [Hinline _];
      [discriminate|].
    destruct (Hinline (RawSource (Text "hello"))) as [Hsize _];
      [reflexivity|reflexivity|].
    exact Hsize.
  - destruct (getSize_default_estimate Sample.empty (Some "javascript"))
      as [Hinline _]; [discriminate|].
    destruct (Hinline (RawSource (Bytes []))) as [_ Hzero];
      [reflexivity|reflexivity|].
    apply Hzero. reflexivity.
  - destruct (getSize_default_estimate Sample.logo None) as [_ Hresource];
      [discriminate|].
    apply Hresource. reflexivity.
Defined.

Lemma getSize_inline_without_content_witness :
  getSize Sample.unbuilt None = 0%float /\
  getSize Sample.unbuilt None <> 36%float.
Proof.
  apply (getSize_inline_without_content Sample.unbuilt None).
  - discriminate.
  - reflexivity.
  - reflexivity.
Defined.

Lemma updateHash_inline_counterexample :
  updateHash (host := Sample.host) (createHash "md4") Sample.hello = ([Text "md4"; Text "data-url"] : list Content) /\
  updateHash (host := Sample.host) (createHash "md4") Sample.hello <>
    Hash_update (createHash "md4") (Text "inline").
Proof. split; [reflexivity | discriminate]. Qed.

Lemma updateHash_token_witness :
  updateHash (host := Sample.host) (createHash "md4") Sample.hello =
    updateHash (host := Sample.host) (createHash "md4") Sample.pixel /\
  updateHash (host := Sample.host) (createHash "md4") Sample.hello =
    Hash_update (createHash "md4") (Text "data-url") /\
  Text "data-url" <> Text "resource".
Proof.
  apply (updateHash_token (host := Sample.host) (createHash "md4") Sample.hello Sample.pixel).
  reflexivity.
Defined.

Lemma generate_dataUrl_URIError_counterexample :
  let this := Sample.declarative (Js.Boolean false) in
  let ctx := Sample.context "javascript" None in
  dataUrlOptions this = Some (DataUrlObject (Js.Boolean false) None) /\
  BuildInfo.dataUrl (NormalModule.buildInfo Sample.surrogate) = true /\
  present (@mimeTypes_lookup Sample.host
             (path_extname (nameForCondition Sample.surrogate))) = true /\
  supportedEncoding (Js.Boolean false) /\
  NormalModule.originalSource Sample.surrogate =
    Some (RawSource (Text Sample.lone)) /\
  Utf16.units Sample.lone = [97%N; 55296%N] /\
  fst (generate this Sample.surrogate ctx) = Throw URIError /\
  (forall message,
      fst (generate this Sample.surrogate ctx) <> Throw (Error message)).
Proof.
  cbv zeta. repeat split; try reflexivity.
  - right. reflexivity.
  - intros message H. discriminate.
Qed.

Lemma generate_dataUrl_error_iff_witness :
  fst (generate (Sample.declarative (Js.Str "base64")) Sample.unknown
         (Sample.context "javascript" None)) =
    Throw (Error
      ("DataUrl can't be generated automatically, because there is no mimetype for " ++
       String "034"%char ".unknownext" ++ String "034"%char
       " in mimetype database. Either pass a mimetype via " ++
       String "034"%char "generator.mimetype" ++ String "034"%char " or use type: " ++
       String "034"%char "asset/resource" ++
       String "034"%char " to create a resource file instead of a DataUrl")) /\
  fst (generate (Sample.declarative (Js.Str "gzip")) Sample.hello
         (Sample.context "javascript" None)) =
    Throw (Error "Unsupported encoding 'gzip'") /\
  fst (generate (Sample.declarative (Js.Boolean true)) Sample.hello
         (Sample.context "javascript" None)) =
    Throw (Error "Unsupported encoding 'true'") /\
  ((exists message,
       fst (generate (Sample.declarative (Js.Str "base64")) Sample.pixel
              (Sample.context "javascript" None)) = Throw (Error message)) <->
   (present None = false /\ present (@mimeTypes_lookup Sample.host ".png") = false) \/
   ~ supportedEncoding (Js.Str "base64")) /\
  fst (generate (Sample.declarative (Js.Boolean false)) Sample.surrogate
         (Sample.context "javascript" None)) = Throw URIError /\
  fst (generate (Sample.declarative (Js.Str "base64")) Sample.unbuilt
         (Sample.context "javascript" None)) = Throw TypeError.
Proof.
  split; [|split; [|split; [|split; [|split]]]].
  - destruct (generate_dataUrl_error_iff
                (Sample.declarative (Js.Str "base64")) Sample.unknown
                (Sample.context "javascript" None) (Js.Str "base64") None)
      as (_ & Hmime & _); [discriminate|reflexivity|reflexivity|].
    apply Hmime. split; reflexivity.
  - destruct (generate_dataUrl_error_iff
                (Sample.declarative (Js.Str "gzip")) Sample.hello
                (Sample.context "javascript" None) (Js.Str "gzip") None)
      as (_ & _ & Hencoding & _); [discriminate|reflexivity|reflexivity|].
    apply Hencoding.
    + intros [_ H]. discriminate.
    + intros [H|H]; discriminate.
  - destruct (generate_dataUrl_error_iff
                (Sample.declarative (Js.Boolean true)) Sample.hello
                (Sample.context "javascript" None) (Js.Boolean true) None)
      as (_ & _ & Hencoding & _); [discriminate|reflexivity|reflexivity|].
    apply Hencoding.
    + intros [_ H]. discriminate.
    + intros [H|H]; discriminate.
  - apply (generate_dataUrl_error_iff
             (Sample.declarative (Js.Str "base64")) Sample.pixel
             (Sample.context "javascript" None) (Js.Str "base64") None).
    + discriminate.
    + reflexivity.
    + reflexivity.
  - destruct (generate_dataUrl_error_iff
                (Sample.declarative (Js.Boolean false)) Sample.surrogate
                (Sample.context "javascript" None) (Js.Boolean false) None)
      as (_ & _ & _ & _ & Huri & _); [discriminate|reflexivity|reflexivity|].
    apply Huri. split; [intros [_ H]; discriminate|].
    split; [reflexivity|]. exists Sample.lone. split; reflexivity.
  - destruct (generate_dataUrl_error_iff
                (Sample.declarative (Js.Str "base64")) Sample.unbuilt
                (Sample.context "javascript" None) (Js.Str "base64") None)
      as (_ & _ & _ & Htype & _); [discriminate|reflexivity|reflexivity|].
    apply Htype. split; [intros [_ H]; discriminate|].
    split; [left; reflexivity|reflexivity].
Defined.

Lemma generate_dataUrl_percent_roundtrip_witness :
  (exists payload,
      fst (generate (Sample.declarative (Js.Boolean false)) Sample.hello
             (Sample.context "javascript" None)) =
        Return (Some (RawSource (Text
          (emitted (Sample.context "javascript" None)
             (JSON_stringify ("data:" ++ "text/plain" ++ "," ++ payload)))))) /\
      URI.percentDecode payload = Some "hello" /\
      ("hello" = "hello" -> payload = "hello")) /\
  (exists payload,
      fst (generate (Sample.declarative (Js.Boolean false)) Sample.helloBytes
             (Sample.context "javascript" (Some []))) =
        Return (Some (RawSource (Text
          (emitted (Sample.context "javascript" (Some []))
             (JSON_stringify ("data:" ++ "text/plain" ++ "," ++ payload)))))) /\
      URI.percentDecode payload = Some "hello" /\
      ("hello" = "hello" -> payload = "hello")).
Proof.
  split.
  - apply (generate_dataUrl_percent_roundtrip
             (Sample.declarative (Js.Boolean false)) Sample.hello
             (Sample.context "javascript" None) None "text/plain" "hello"
             (Text "hello")); try reflexivity.
    + discriminate.
    + left. reflexivity.
  - apply (generate_dataUrl_percent_roundtrip
             (Sample.declarative (Js.Boolean false)) Sample.helloBytes
             (Sample.context "javascript" (Some [])) None "text/plain" "hello"
             (Bytes (list_byte_of_string "hello"))); try reflexivity.
    + discriminate.
    + right. reflexivity.
Defined.

Lemma generate_dataUrl_base64_roundtrip_witness :
  exists payload,
    fst (generate (Sample.declarative (Js.Str "base64")) Sample.pixel
           (Sample.context "javascript" None)) =
      Return (Some (RawSource (Text
        (emitted (Sample.context "javascript" None)
           (JSON_stringify ("data:" ++ "image/png" ++ ";base64," ++ payload)))))) /\
    Base64.decode payload = Some Sample.png.
Proof.
  apply (generate_dataUrl_base64_roundtrip
           (Sample.declarative (Js.Str "base64")) Sample.pixel
           (Sample.context "javascript" None) None "image/png"
           (RawSource (Bytes Sample.png)) Sample.png); try reflexivity.
  discriminate.
Defined.

Lemma generate_resource_runtime_counterexample :
  let this := Sample.templated "[runtime]/[hash][ext]" in
  let ctx := Sample.contextOf (Some "main") in
  let ctx' := Sample.contextOf (Some "worker") in
  let after := NormalModule.buildInfo (module_after this Sample.logo ctx) in
  let after' := NormalModule.buildInfo (module_after this Sample.logo ctx') in
  BuildInfo.dataUrl (NormalModule.buildInfo Sample.logo) = false /\
  RuntimeTemplate.outputOptions (runtimeTemplate ctx) =
    RuntimeTemplate.outputOptions (runtimeTemplate ctx') /\
  templateOf this ctx = templateOf this ctx' /\
  relativePathOf this Sample.logo = "src/logo.png" /\
  BuildInfo.fullContentHash after = BuildInfo.fullContentHash after' /\
  BuildInfo.filename after = Some "main/hex:bWQ0iVBORw==.png" /\
  BuildInfo.filename after' = Some "worker/hex:bWQ0iVBORw==.png" /\
  BuildInfo.filename after <> BuildInfo.filename after'.
Proof.
  cbv zeta. repeat split; try reflexivity. discriminate.
Qed.

Lemma generate_resource_deterministic_witness :
  let first := Sample.context "javascript" None in
  let after :=
    NormalModule.buildInfo (module_after (Sample.generator None) Sample.logo first) in
  let after' :=
    NormalModule.buildInfo
      (module_after Sample.generator' Sample.logo' Sample.context') in
  let stale :=
    NormalModule.buildInfo
      (module_after (Sample.generator None) Sample.stale
         (Sample.context "javascript" (Some []))) in
  let again :=
    NormalModule.buildInfo
      (module_after (Sample.generator None)
         (module_after (Sample.generator None) Sample.logo first) first) in
  (is_Some (BuildInfo.fullContentHash after) /\
   BuildInfo.fullContentHash after = BuildInfo.fullContentHash after') /\
  (is_Some (BuildInfo.filename after) /\
   BuildInfo.filename after = BuildInfo.filename stale /\
   BuildInfo.assetInfo after = BuildInfo.assetInfo stale) /\
  (BuildInfo.fullContentHash again = BuildInfo.fullContentHash after /\
   BuildInfo.filename again = BuildInfo.filename after /\
   BuildInfo.assetInfo again = BuildInfo.assetInfo after).
Proof.
  cbv zeta. split; [|split].
  - destruct (generate_resource_deterministic
                (Sample.generator None) Sample.generator'
                Sample.logo Sample.logo'
                (Sample.context "javascript" None) Sample.context'
                (RawSource (Bytes Sample.png)) (RawSource (Bytes Sample.png)))
      as (Hhash & _); try reflexivity; try discriminate.
    exact Hhash.
  - destruct (generate_resource_deterministic
                (Sample.generator None) (Sample.generator None)
                Sample.logo Sample.stale
                (Sample.context "javascript" None)
                (Sample.context "javascript" (Some []))
                (RawSource (Bytes Sample.png)) (RawSource (Bytes Sample.png)))
      as (_ & Hname & _); try reflexivity; try discriminate.
    cbv zeta in Hname.
    apply Hname; try reflexivity.
    + left. repeat split.
    + eexists. reflexivity.
  - destruct (generate_resource_deterministic
                (Sample.generator None) (Sample.generator None)
                Sample.logo Sample.logo
                (Sample.context "javascript" None)
                (Sample.context "javascript" None)
                (RawSource (Bytes Sample.png)) (RawSource (Bytes Sample.png)))
      as (_ & _ & Hagain); try reflexivity; try discriminate.
    cbv zeta in Hagain.
    apply Hagain; [exact Sample_templating|eexists; reflexivity].
Defined.

(** ** Further runs on the sample host *)

Module Fixture.

(** A custom encoder: it names the file and ignores the content. *)
Definition custom : AssetGenerator :=
  Sample.generator
    (Some (DataUrlFunction (fun _ filename _ => "custom:" ++ filename))).

Definition overridden (encoding : Js.value) (mimetype : string) : AssetGenerator :=
  Sample.generator (Some (DataUrlObject encoding (Some mimetype))).

(** The text of U+00E9, and bytes that are no UTF-8. *)
Definition accent : string := String (ascii_of_N 195) (String (ascii_of_N 169) EmptyString).
Definition accented : NormalModule.t :=
  Sample.module true (Some (Text accent)) "/app/src/accent.txt".
Definition broken : NormalModule.t :=
  Sample.module true (Some (Bytes [x68; xff])) "/app/src/broken.txt".

Definition salted (salt : option string) : GenerateContext :=
  with_outputOptions (set_hashSalt salt) (Sample.context "javascript" None).

(** Content hashes of eight code units. *)
Definition short : GenerateContext :=
  with_outputOptions
    (fun o =>
       OutputOptions.mk (OutputOptions.assetModuleFilename o)
         (OutputOptions.hashFunction o) (OutputOptions.hashSalt o)
         (OutputOptions.hashDigest o) 8)
    (Sample.context "javascript" None).

Definition calls : list (AssetGenerator * GenerateContext) :=
  [ (Sample.generator None, Sample.context "javascript" None);
    (Sample.generator None, Sample.context "asset" None);
    (Sample.generator', Sample.context') ].


End Fixture.


Lemma generate_dataUrl_function_witness :
  fst (generate Fixture.custom Sample.unknown (Sample.context "javascript" None)) =
    Return (Some (RawSource (Text
      ("module.exports = " ++ Js.dquote ++ "custom:/app/src/data.unknownext" ++
       Js.dquote ++ ";")))) /\
  module_after Fixture.custom Sample.unknown (Sample.context "javascript" None) =
    Sample.unknown.
Proof.
  apply (generate_dataUrl_function Fixture.custom Sample.unknown
           (Sample.context "javascript" None)
           (fun _ filename _ => "custom:" ++ filename)).
  - discriminate.
  - reflexivity.
  - reflexivity.
Defined.

Lemma generate_dataUrl_without_options_witness :
  generate (Sample.generator None) Sample.hello (Sample.context "javascript" None) =
    (Throw TypeError, initial Sample.hello (Sample.context "javascript" None)).
Proof.
  apply (generate_dataUrl_without_options (Sample.generator None) Sample.hello
           (Sample.context "javascript" None)).
  - discriminate.
  - reflexivity.
  - reflexivity.
Defined.

Lemma generate_mimetype_override_witness :
  fst (generate (Fixture.overridden (Js.Str "base64") "application/octet-stream")
         Sample.unknown (Sample.context "javascript" None)) =
    Return (Some (RawSource (Text
      ("module.exports = " ++ Js.dquote ++
       "data:application/octet-stream;base64,iVBORw==" ++ Js.dquote ++ ";")))) /\
  fst (generate (Fixture.overridden (Js.Boolean false) "text/x-greeting")
         Sample.hello (Sample.context "javascript" None)) =
    Return (Some (RawSource (Text
      ("module.exports = " ++ Js.dquote ++
       "data:text/x-greeting,hello" ++ Js.dquote ++ ";")))) /\
  generate (Fixture.overridden (Js.Str "base64") "") Sample.pixel
    (Sample.context "javascript" None) =
    generate (Sample.declarative (Js.Str "base64")) Sample.pixel
      (Sample.context "javascript" None).
Proof.
  split; [|split].
  - destruct (generate_mimetype_override
                (Fixture.overridden (Js.Str "base64") "application/octet-stream")
                Sample.unknown
                (Sample.context "javascript" None) (Js.Str "base64")
                "application/octet-stream") as [Hoverride _]; [reflexivity|].
    destruct (Hoverride ltac:(discriminate) ltac:(discriminate) eq_refl
                (RawSource (Bytes Sample.png)) eq_refl) as (Hurl & _).
    exact (Hurl eq_refl).
  - destruct (generate_mimetype_override
                (Fixture.overridden (Js.Boolean false) "text/x-greeting")
                Sample.hello
                (Sample.context "javascript" None) (Js.Boolean false)
                "text/x-greeting") as [Hoverride _]; [reflexivity|].
    destruct (Hoverride ltac:(discriminate) ltac:(discriminate) eq_refl
                (RawSource (Text "hello")) eq_refl) as (_ & Hurl & _).
    exact (Hurl eq_refl "hello" eq_refl).
  - destruct (generate_mimetype_override
                (Fixture.overridden (Js.Str "base64") "") Sample.pixel
                (Sample.context "javascript" None) (Js.Str "base64") "")
      as [_ Hempty]; [reflexivity|].
    exact (Hempty eq_refl).
Defined.

Lemma generate_dataUrl_false_payload_witness :
  (exists payload,
      fst (generate (Sample.declarative (Js.Boolean false)) Fixture.accented
             (Sample.context "javascript" None)) =
        Return (Some (RawSource (Text
          (emitted (Sample.context "javascript" None)
             (JSON_stringify ("data:" ++ "text/plain" ++ "," ++ payload)))))) /\
      Utf8.all_ascii payload = true /\
      URI.percentDecode payload = Some Fixture.accent) /\
  (exists payload,
      fst (generate (Sample.declarative (Js.Boolean false)) Fixture.broken
             (Sample.context "javascript" None)) =
        Return (Some (RawSource (Text
          (emitted (Sample.context "javascript" None)
             (JSON_stringify ("data:" ++ "text/plain" ++ "," ++ payload)))))) /\
      Utf8.all_ascii payload = true /\
      URI.percentDecode payload = Some ("h" ++ Utf8.replacement)) /\
  fst (generate (Sample.declarative (Js.Boolean false)) Sample.surrogate
         (Sample.context "javascript" None)) = Throw URIError.
Proof.
  split; [|split].
  - destruct (generate_dataUrl_false_payload
                (Sample.declarative (Js.Boolean false)) Fixture.accented
                (Sample.context "javascript" None) None "text/plain"
                (RawSource (Text Fixture.accent))) as (Hpayload & _);
      try reflexivity; [discriminate|].
    apply Hpayload. reflexivity.
  - destruct (generate_dataUrl_false_payload
                (Sample.declarative (Js.Boolean false)) Fixture.broken
                (Sample.context "javascript" None) None "text/plain"
                (RawSource (Bytes [x68; xff]))) as (Hpayload & _);
      try reflexivity; [discriminate|].
    apply Hpayload. reflexivity.
  - destruct (generate_dataUrl_false_payload
                (Sample.declarative (Js.Boolean false)) Sample.surrogate
                (Sample.context "javascript" None) None "text/plain"
                (RawSource (Text Sample.lone))
                ltac:(discriminate) eq_refl eq_refl eq_refl eq_refl)
      as (_ & Hthrow & _).
    apply Hthrow. reflexivity.
Defined.

Lemma generate_dataUrl_false_verbatim_witness :
  exists payload,
    fst (generate (Sample.declarative (Js.Boolean false)) Sample.hello
           (Sample.context "javascript" None)) =
      Return (Some (RawSource (Text
        (emitted (Sample.context "javascript" None)
           (JSON_stringify ("data:" ++ "text/plain" ++ "," ++ payload)))))) /\
    all_uri payload = true /\
    (forall content,
       Text "hello" = Text content ->
       (forall c, URI.mem c content = true -> URI.mem c URI.unescapedSet = true) ->
       payload = content).
Proof.
  destruct (generate_dataUrl_false_verbatim
              (Sample.declarative (Js.Boolean false)) Sample.hello
              (Sample.context "javascript" None) None "text/plain"
              (RawSource (Text "hello"))) as (Hpayload & _);
    try reflexivity; [discriminate|].
  apply Hpayload. reflexivity.
Defined.

Lemma generate_dataUrl_base64_payload_witness :
  exists payload,
    fst (generate (Sample.declarative (Js.Str "base64")) Sample.pixel
           (Sample.context "javascript" None)) =
      Return (Some (RawSource (Text
        (emitted (Sample.context "javascript" None)
           (JSON_stringify ("data:" ++ "image/png" ++ ";base64," ++ payload)))))) /\
    Z.of_nat (String.length payload) = 8%Z /\
    all_base64 payload = true.
Proof.
  apply (generate_dataUrl_base64_payload
           (Sample.declarative (Js.Str "base64")) Sample.pixel
           (Sample.context "javascript" None) None "image/png"
           (RawSource (Bytes Sample.png))); try reflexivity.
  discriminate.
Defined.

Lemma generate_resource_reference_witness :
  exists data : PathData.t RuntimeSpec ChunkGraph,
    let this := Sample.generator None in
    let ctx := Sample.context "javascript" None in
    let after := NormalModule.buildInfo (module_after this Sample.logo ctx) in
    let resolution := getAssetPathWithInfo (compilation this) (templateOf this ctx) data in
    ((exists out, fst (generate this Sample.logo ctx) = Return out) <->
     (exists r, resolution = Return r)) /\
    (forall filename info,
       resolution = Return (filename, info) ->
       BuildInfo.filename after = Some filename /\
       fst (generate this Sample.logo ctx) =
         Return (Some (RawSource (Text (emitted ctx
           (RuntimeGlobals_publicPath ++ " + " ++ JSON_stringify filename))))) /\
       BuildInfo.assetInfo after = Some info) /\
    (forall e, resolution = Throw e -> fst (generate this Sample.logo ctx) = Throw e).
Proof.
  apply (generate_resource_reference (Sample.generator None) Sample.logo
           (Sample.context "javascript" None) (RawSource (Bytes Sample.png)));
    try reflexivity.
  discriminate.
Defined.

Lemma generate_resource_pathData_witness :
  exists (data : PathData.t RuntimeSpec ChunkGraph) (fullHash : string),
    let this := Sample.generator None in
    let after := NormalModule.buildInfo (module_after this Sample.logo Fixture.short) in
    let handed := NormalModule.buildInfo (PathData.module data) in
    let digits :=
      OutputOptions.hashDigestLength
        (RuntimeTemplate.outputOptions (runtimeTemplate Fixture.short)) in
    let kept (len : Z) : nat :=
      Z.to_nat (if (digits <? 0)%Z then Z.max (len + digits) 0 else Z.min digits len) in
    fst (generate this Sample.logo Fixture.short) =
      match getAssetPathWithInfo (compilation this) (templateOf this Fixture.short) data with
      | Return (filename, _) =>
          Return (Some (RawSource (Text (emitted Fixture.short
            (RuntimeGlobals_publicPath ++ " + " ++ JSON_stringify filename)))))
      | Throw e => Throw e
      end /\
    BuildInfo.fullContentHash after = Some fullHash /\
    BuildInfo.fullContentHash handed = Some fullHash /\
    BuildInfo.filename handed = BuildInfo.filename (NormalModule.buildInfo Sample.logo) /\
    BuildInfo.assetInfo handed = BuildInfo.assetInfo (NormalModule.buildInfo Sample.logo) /\
    Utf16.units (PathData.contentHash data) =
      firstn (kept (Z.of_nat (Utf16.length fullHash))) (Utf16.units fullHash) /\
    (Utf8.all_ascii fullHash = true ->
     PathData.contentHash data =
       String.substring 0 (kept (Z.of_nat (String.length fullHash))) fullHash) /\
    PathData.filename data = relativePathOf this Sample.logo /\
    PathData.runtime data = runtime Fixture.short /\
    PathData.chunkGraph data = chunkGraph Fixture.short.
Proof.
  apply (generate_resource_pathData (Sample.generator None) Sample.logo
           Fixture.short (RawSource (Bytes Sample.png)));
    try reflexivity.
  discriminate.
Defined.

Example generate_resource_short :
  BuildInfo.filename
    (NormalModule.buildInfo
       (module_after (Sample.generator None) Sample.logo Fixture.short)) =
    Some "hex:bWQ0.png".
Proof. reflexivity. Qed.

Lemma generate_hashSalt_witness :
  module_after (Sample.generator None) Sample.logo (Fixture.salted (Some "")) =
    module_after (Sample.generator None) Sample.logo (Fixture.salted None) /\
  BuildInfo.fullContentHash
    (NormalModule.buildInfo
       (module_after (Sample.generator None) Sample.logo
          (Fixture.salted (Some "pepper")))) =
    Some (Hash_digest [Text "md4"; Text "pepper"; Bytes Sample.png] "hex").
Proof.
  destruct (generate_hashSalt (Sample.generator None) Sample.logo
              (Sample.context "javascript" None)) as [Hempty Hsalt].
  split; [exact Hempty|].
  apply (Hsalt "pepper" (RawSource (Bytes Sample.png))); try reflexivity;
    discriminate.
Defined.

Lemma generate_filename_override_witness :
  module_after Sample.generator' Sample.logo'
    (with_outputOptions (set_assetModuleFilename "ignored/[hash]") Sample.context') =
    module_after Sample.generator' Sample.logo' Sample.context' /\
  templateOf Sample.generator' Sample.context' = "[hash][ext]".
Proof.
  destruct (generate_filename_override Sample.generator' Sample.logo'
              Sample.context') as [_ Hoverride].
  apply (Hoverride "[hash][ext]" "ignored/[hash]"); [reflexivity|discriminate].
Defined.


Lemma generate_default_kind_witness :
  generate (Sample.generator None) Sample.logo
    (with_type "css" (Sample.context "javascript" None)) =
  generate (Sample.generator None) Sample.logo
    (with_type "javascript" (Sample.context "javascript" None)) /\
  getSize Sample.logo (Some "css") = getSize Sample.logo None.
Proof.
  apply (generate_default_kind (Sample.generator None) Sample.logo
           (Sample.context "javascript" None) "css").
  discriminate.
Defined.

Lemma generate_throws_witness :
  let this := Sample.templated "[fullhash][ext]" in
  let ctx := Sample.contextOf None in
  let e := Error "Path variable [fullhash] not implemented in this context: [fullhash][ext]" in
  type ctx <> "asset" /\
  the_runtimeRequirements (snd (generate this Sample.logo ctx)) = runtimeRequirements ctx /\
  the_concatenationScope (snd (generate this Sample.logo ctx)) = concatenationScope ctx /\
  ((e = TypeError /\
    module_after this Sample.logo ctx = Sample.logo /\
    (NormalModule.originalSource Sample.logo = None \/
     (BuildInfo.dataUrl (NormalModule.buildInfo Sample.logo) = true /\
      dataUrlOptions this = None))) \/
   (exists encoding mimetype,
      module_after this Sample.logo ctx = Sample.logo /\
      BuildInfo.dataUrl (NormalModule.buildInfo Sample.logo) = true /\
      dataUrlOptions this = Some (DataUrlObject encoding mimetype) /\
      ((exists message,
          e = Error message /\
          (resolvedMimetype mimetype (path_extname (nameForCondition Sample.logo)) = None \/
           ~ supportedEncoding encoding)) \/
       (e = URIError /\ encoding = Js.Boolean false /\
        exists content,
          NormalModule.originalSource Sample.logo = Some (RawSource (Text content)) /\
          Utf8.lone_surrogate content = true))) \/
   (exists src,
      BuildInfo.dataUrl (NormalModule.buildInfo Sample.logo) = false /\
      NormalModule.originalSource Sample.logo = Some src /\
      resolved this Sample.logo ctx src = Throw e /\
      module_after this Sample.logo ctx =
        NormalModule.with_buildInfo
          (BuildInfo.set_fullContentHash
             (fullHashOf (RuntimeTemplate.outputOptions (runtimeTemplate ctx))
                (Source.buffer src)))
          Sample.logo)).
Proof.
  apply (generate_throws (Sample.templated "[fullhash][ext]") Sample.logo
           (Sample.contextOf None)
           (Error "Path variable [fullhash] not implemented in this context: [fullhash][ext]")).
  reflexivity.
Defined.
